(** * Fortigate IPsec VPN phase-2 tunnel check: a shallow embedding

    Source: [fortinet/agent_based/fortigate_ipsecvpn_tunnel.py].

    The plugin has four functions: [human_readable_bytes],
    [parse_fortigate_vpn_tunnel], [discover_fortigate_vpn_tunnel] and
    [check_fortigate_vpn_tunnel].  Python dictionaries are finite maps
    ([gmap]), Python exceptions are an error monad, and the two generator
    functions return what they yield.  The order in which a dictionary is
    iterated is not modelled: the properties below speak of key sets. *)

From Stdlib Require Import ZArith Ascii String.
From stdpp Require Import gmap strings list fin_maps pretty.

Local Open Scope Z_scope.

(** ** Exceptions *)

Module Py.

(** The exceptions the plugin's code can raise. *)
Inductive exn : Type :=
  | KeyError
  | ValueError
  | OverflowError.

(** A computation that returns a value or raises. *)
Inductive result (A : Type) : Type :=
  | Ok (a : A)
  | Raise (e : exn).
Arguments Ok {A} a.
Arguments Raise {A} e.

#[export] Instance result_ret : MRet result := λ A a, Ok a.

#[export] Instance result_bind : MBind result := λ A B f m,
  match m with
  | Ok a => f a
  | Raise e => Raise e
  end.

Definition raises {A : Type} (m : result A) : Prop :=
  match m with
  | Ok _ => False
  | Raise _ => True
  end.

End Py.

Import Py.

(** ** Numbers

    [num_bytes] starts as a Python [int] and becomes a [float] at the first
    [num_bytes /= 1024.0].  A float that occurs here is an integer of at most
    53 significant bits divided by a power of two, so it is kept exactly as
    [fl_mant / 2 ^ fl_scale]. *)

Record pyfloat : Type := MkFloat { fl_mant : Z; fl_scale : Z }.

Inductive pynum : Type :=
  | PyInt (n : Z)
  | PyFloat (x : pyfloat).

(** The integer nearest to [a / d], ties to the even one ([0 ≤ a], [0 < d]). *)
Definition round_half_even (a d : Z) : Z :=
  let q := a / d in
  let r := a mod d in
  if 2 * r <? d then q
  else if d <? 2 * r then q + 1
  else if Z.even q then q else q + 1.

(** [abs n] rounded to 53 significant bits, ties to even. *)
Definition round53 (a : Z) : Z :=
  let e := Z.log2 a - 52 in
  if e <=? 0 then a else round_half_even a (2 ^ e) * 2 ^ e.

(** Conversion of an [int] to a [float]: exact below [2 ^ 53], rounded
    above, and an [OverflowError] when the rounded value does not fit. *)
Definition float_of_int (n : Z) : result pyfloat :=
  let m := round53 (Z.abs n) in
  if 2 ^ 1024 <=? m then Raise OverflowError
  else Ok (MkFloat (Z.sgn n * m) 0).

(** [num_bytes < 1024.0]; comparing an [int] with a [float] is exact. *)
Definition lt_1024 (num_bytes : pynum) : bool :=
  match num_bytes with
  | PyInt n => n <? 1024
  | PyFloat x => fl_mant x <? 1024 * 2 ^ fl_scale x
  end.

(** [x / 1024.0] on a float of magnitude at least 1024: the exponent drops
    by ten and no bit is lost. *)
Definition fdiv_1024 (x : pyfloat) : pyfloat :=
  MkFloat (fl_mant x) (fl_scale x + 10).

(** [num_bytes / 1024.0]; an [int] operand is converted first. *)
Definition truediv_1024 (num_bytes : pynum) : result pyfloat :=
  match num_bytes with
  | PyInt n => x ← float_of_int n ; Ok (fdiv_1024 x)
  | PyFloat x => Ok (fdiv_1024 x)
  end.

(** Two decimal digits of [d], [0 ≤ d < 100]. *)
Definition two_digits (d : Z) : string :=
  pretty (d / 10) +:+ pretty (d mod 10).

(** [f"{x:.2f}"] on a float: the value rounded to hundredths, ties to even
    on the exact binary value. *)
Definition format_float_2f (x : pyfloat) : string :=
  let h := round_half_even (100 * Z.abs (fl_mant x)) (2 ^ fl_scale x) in
  (if fl_mant x <? 0 then "-" else EmptyString)
    +:+ pretty (h / 100) +:+ "." +:+ two_digits (h mod 100).

(** [f"{num_bytes:.2f}"]; an [int] is converted to a float first. *)
Definition format_2f (num_bytes : pynum) : result string :=
  match num_bytes with
  | PyInt n => x ← float_of_int n ; Ok (format_float_2f x)
  | PyFloat x => Ok (format_float_2f x)
  end.

(** ** human_readable_bytes *)

Definition units : list string := ["bytes"; "KB"; "MB"; "GB"; "TB"]%string.

(** The [for unit in ...] loop.  When the list is exhausted the function
    body ends without a [return], which in Python returns [None]. *)
Fixpoint human_readable_bytes_loop (us : list string) (num_bytes : pynum)
  : result (option string) :=
  match us with
  | [] => Ok None
  | unit :: us' =>
      if lt_1024 num_bytes then
        s ← format_2f num_bytes ; Ok (Some (s +:+ " " +:+ unit))
      else
        x ← truediv_1024 num_bytes ; human_readable_bytes_loop us' (PyFloat x)
  end.

Definition human_readable_bytes (num_bytes : Z) : result (option string) :=
  human_readable_bytes_loop units (PyInt num_bytes).

(** ** The plugin's data *)

(** The API's value classes ([State], [Result], [Metric], [Service]) are
    taken as constructors. *)
Inductive State : Type := OK | WARN | CRIT | UNKNOWN.

Inductive output : Type :=
  | Result (state : State) (summary : string)
  | Metric (name : string) (value : Z).

Inductive service : Type :=
  | Service (item : string).

(** The dictionary stored per tunnel:
    [{"in": ..., "out": ..., "state": ...}]. *)
Record tunnel : Type := MkTunnel {
  data_in : Z;
  data_out : Z;
  data_state : string;
}.

#[export] Instance State_eq_dec : EqDecision State.
Proof. solve_decision. Defined.
#[export] Instance output_eq_dec : EqDecision output.
Proof. solve_decision. Defined.
#[export] Instance service_eq_dec : EqDecision service.
Proof. solve_decision. Defined.
#[export] Instance tunnel_eq_dec : EqDecision tunnel.
Proof. solve_decision. Defined.

Definition fortigate_ipsecvpn_tunnel_ent_status_map : gmap string string :=
  {[ "1" := "down"; "2" := "up" ]}%string.

(** [d[k]] on a dictionary: a [KeyError] when the key is absent. *)
Definition getitem {V : Type} (d : gmap string V) (k : string) : result V :=
  match d !! k with
  | Some v => Ok v
  | None => Raise KeyError
  end.

(** What an f-string interpolates for the value [human_readable_bytes]
    returned: the string itself, or the text [None]. *)
Definition py_str (r : option string) : string :=
  match r with
  | Some s => s
  | None => "None"
  end.

(** ** Generators

    A generator function is modelled by what it yields, in order, and how it
    ends: by returning, or by raising after the items already yielded. *)

Module Gen.

Record gen (A : Type) : Type := MkGen {
  yielded : list output;
  outcome : result A;
}.
Arguments MkGen {A} yielded outcome.
Arguments yielded {A} g.
Arguments outcome {A} g.

Definition yield (o : output) : gen () := MkGen [o] (Ok ()).

(** A computation that yields nothing. *)
Definition lift {A : Type} (m : result A) : gen A := MkGen [] m.

#[export] Instance gen_ret : MRet gen := λ A a, MkGen [] (Ok a).

#[export] Instance gen_bind : MBind gen := λ A B f m,
  match outcome m with
  | Ok a => MkGen (yielded m ++ yielded (f a)) (outcome (f a))
  | Raise e => MkGen (yielded m) (Raise e)
  end.

End Gen.

Import Gen.

Definition is_metric (o : output) : bool :=
  match o with
  | Metric _ _ => true
  | Result _ _ => false
  end.

(** ** parse_fortigate_vpn_tunnel *)

Section Parse.

(** The builtin [int] on a string: [None] when it raises [ValueError]. *)
Variable int : string → option Z.

Definition py_int (s : string) : result Z :=
  match int s with
  | Some z => Ok z
  | None => Raise ValueError
  end.

(** One turn of the loop: unpack the row into four names (a row of another
    length raises [ValueError]), convert, and assign [parsed[ph2_name]]. *)
Definition parse_row (parsed : gmap string tunnel) (row : list string)
  : result (gmap string tunnel) :=
  match row with
  | [ph2_name; ph2_in; ph2_out; ph2_state] =>
      i ← py_int ph2_in;
      o ← py_int ph2_out;
      Ok (<[ph2_name := MkTunnel i o ph2_state]> parsed)
  | _ => Raise ValueError
  end.

Fixpoint parse_loop (string_table : list (list string))
    (parsed : gmap string tunnel) : result (gmap string tunnel) :=
  match string_table with
  | [] => Ok parsed
  | row :: rest => parsed' ← parse_row parsed row; parse_loop rest parsed'
  end.

Definition parse_fortigate_vpn_tunnel (string_table : list (list string))
  : result (gmap string tunnel) :=
  parse_loop string_table ∅.

(** A well-formed row: four fields, the two byte fields readable by [int].
    The status field is not looked at. *)
Definition well_formed_row (row : list string) : bool :=
  match row with
  | [_; ph2_in; ph2_out; _] =>
      match int ph2_in, int ph2_out with
      | Some _, Some _ => true
      | _, _ => false
      end
  | _ => false
  end.

End Parse.

(** A reading of decimal text, used to run the parser on examples: an
    optional sign followed by one or more ASCII digits. *)
Definition digit_of (c : ascii) : option Z :=
  let n := Z.of_N (N_of_ascii c) in
  if (48 <=? n) && (n <=? 57) then Some (n - 48) else None.

Fixpoint digits_value (acc : Z) (s : string) : option Z :=
  match s with
  | EmptyString => Some acc
  | String c s' => d ← digit_of c; digits_value (10 * acc + d) s'
  end.

Definition int_decimal (s : string) : option Z :=
  match s with
  | EmptyString => None
  | String "-" (String _ _ as s') => Z.opp <$> digits_value 0 s'
  | String "+" (String _ _ as s') => digits_value 0 s'
  | _ => digits_value 0 s
  end.

(** ** discover_fortigate_vpn_tunnel *)

(** [section.keys()], as a list without repetition; Python's insertion
    order is not kept. *)
Definition keys {V : Type} (d : gmap string V) : list string :=
  (map_to_list d).*1.

Definition discover_fortigate_vpn_tunnel (section : gmap string tunnel)
  : list service :=
  (λ tunnel_name, Service tunnel_name) <$> keys section.

(** The identifier a discovered service stands for. *)
Definition service_item (s : service) : string :=
  match s with
  | Service item => item
  end.

(** ** check_fortigate_vpn_tunnel *)

(** The local dictionary [state_map] of the check function. *)
Definition state_map : gmap string State :=
  {[ "up" := OK; "down" := CRIT ]}%string.

(** [section.get(item)] is [None] for an absent item; a stored tunnel is a
    dictionary of three keys, hence true in [if not data]. *)
Definition check_fortigate_vpn_tunnel (item : string)
    (section : gmap string tunnel) : gen () :=
  match section !! item with
  | None =>
      yield (Result CRIT ("Tunnel '" +:+ item +:+ "' is missing"))
  | Some data =>
      label ← lift (getitem fortigate_ipsecvpn_tunnel_ent_status_map
                      (data_state data));
      let state := default UNKNOWN (state_map !! label) in
      let ph2_in := data_in data in
      let ph2_out := data_out data in
      label' ← lift (getitem fortigate_ipsecvpn_tunnel_ent_status_map
                       (data_state data));
      r_in ← lift (human_readable_bytes ph2_in);
      r_out ← lift (human_readable_bytes ph2_out);
      yield (Result state
               ("Status: " +:+ label' +:+ ", In: " +:+ py_str r_in
                  +:+ ", Out: " +:+ py_str r_out));;
      yield (Metric "in_octets" ph2_in);;
      yield (Metric "out_octets" ph2_out)
  end.

(** ** Sample data *)

Definition example_table : list (list string) :=
  [ ["vpn1"; "100"; "200"; "2"];
    ["vpn2"; "0"; "0"; "2"];
    ["vpn1"; "2048"; "1536"; "1"];
    ["vpn3"; "10"; "20"; "7"] ]%string.

Definition example_section : gmap string tunnel :=
  {[ "vpn1" := MkTunnel 2048 1536 "1";
     "vpn2" := MkTunnel 0 0 "2";
     "vpn3" := MkTunnel 10 20 "7";
     "vpn4" := MkTunnel (1024 ^ 5 - 1) (1024 ^ 5) "2" ]}%string.

(** A tunnel that is up, with an inbound counter no float can hold. *)
Definition huge_section : gmap string tunnel :=
  {[ "vpn1" := MkTunnel (2 ^ 1024) 0 "2" ]}%string.

(** What [example_table] parses to. *)
Definition example_snapshot : gmap string tunnel :=
  {[ "vpn1" := MkTunnel 2048 1536 "1";
     "vpn2" := MkTunnel 0 0 "2";
     "vpn3" := MkTunnel 10 20 "7" ]}%string.

(** * Properties *)

(** ** Conversion to float *)

Lemma round_half_even_bounds (a d : Z) :
  0 ≤ a → 0 < d → a / d ≤ round_half_even a d ≤ a / d + 1.
Proof.
  intros Ha Hd. unfold round_half_even.
  repeat case_match; lia.
Qed.

Lemma round53_exact (a : Z) : 0 ≤ a → a < 2 ^ 53 → round53 a = a.
Proof.
  intros Ha Hlt. unfold round53.
  destruct (decide (a = 0)) as [->|Hne]; [reflexivity|].
  assert (Z.log2 a < 53) by (apply Z.log2_lt_pow2; lia).
  case_match; [reflexivity|lia].
Qed.

(** Below [2 ^ 53] the conversion is exact. *)
Lemma float_of_int_exact (n : Z) :
  Z.abs n < 2 ^ 53 → float_of_int n = Ok (MkFloat n 0).
Proof.
  intros Hn. unfold float_of_int.
  rewrite round53_exact by lia.
  assert (2 ^ 53 < 2 ^ 1024) by (apply Z.pow_lt_mono_r; lia).
  case_match; [lia|].
  do 2 f_equal. lia.
Qed.

(** A rounded value is never below the largest power of two under its
    argument. *)
Lemma round53_lower (a : Z) : 0 < a → 2 ^ Z.log2 a ≤ round53 a.
Proof.
  intros Ha. unfold round53.
  pose proof (Z.log2_spec a Ha) as [Hlo Hhi].
  case_match; [lia|].
  assert (He : 0 < Z.log2 a - 52) by lia.
  set (e := Z.log2 a - 52) in *.
  assert (Hd : 0 < 2 ^ e) by (apply Z.pow_pos_nonneg; lia).
  pose proof (round_half_even_bounds a (2 ^ e) ltac:(lia) Hd) as [Hq _].
  assert (Hsplit : 2 ^ Z.log2 a = 2 ^ 52 * 2 ^ e).
  { rewrite <- Z.pow_add_r by lia. f_equal. lia. }
  assert (2 ^ 52 ≤ a / 2 ^ e).
  { apply Z.div_le_lower_bound; lia. }
  rewrite Hsplit. apply Z.mul_le_mono_nonneg_r; lia.
Qed.

Lemma round53_upper (a : Z) : 0 < a → round53 a ≤ 2 ^ (Z.log2 a + 1).
Proof.
  intros Ha. unfold round53.
  pose proof (Z.log2_spec a Ha) as [Hlo Hhi].
  replace (Z.succ (Z.log2 a)) with (Z.log2 a + 1) in Hhi by lia.
  case_match; [lia|].
  assert (He : 0 < Z.log2 a - 52) by lia.
  set (e := Z.log2 a - 52) in *.
  assert (Hd : 0 < 2 ^ e) by (apply Z.pow_pos_nonneg; lia).
  pose proof (round_half_even_bounds a (2 ^ e) ltac:(lia) Hd) as [_ Hq].
  assert (Hsplit : 2 ^ (Z.log2 a + 1) = 2 ^ 53 * 2 ^ e).
  { rewrite <- Z.pow_add_r by lia. f_equal. lia. }
  assert (a / 2 ^ e < 2 ^ 53).
  { apply Z.div_lt_upper_bound; lia. }
  rewrite Hsplit. apply Z.mul_le_mono_nonneg_r; lia.
Qed.

(** The rounded value fits a float exactly when the integer is below
    [2 ^ 1024 - 2 ^ 970], halfway between the largest float and
    [2 ^ 1024]. *)
Lemma round53_fits (a : Z) :
  0 ≤ a → round53 a < 2 ^ 1024 ↔ a < 2 ^ 1024 - 2 ^ 970.
Proof.
  intros Ha.
  assert (H1024 : 2 ^ 1024 = 2 ^ 53 * (2 * 2 ^ 970)) by reflexivity.
  assert (H1023 : 2 ^ 1023 = 2 ^ 52 * (2 * 2 ^ 970)) by reflexivity.
  assert (H971 : 2 ^ 971 = 2 * 2 ^ 970) by reflexivity.
  assert (HH : 0 < 2 ^ 970) by (apply Z.pow_pos_nonneg; lia).
  destruct (decide (a = 0)) as [->|Hne].
  { rewrite round53_exact by (try apply Z.pow_pos_nonneg; lia). lia. }
  assert (Hpos : 0 < a) by lia.
  pose proof (Z.log2_spec a Hpos) as [Hlo Hhi].
  replace (Z.succ (Z.log2 a)) with (Z.log2 a + 1) in Hhi by lia.
  pose proof (round53_lower a Hpos) as Hrl.
  pose proof (round53_upper a Hpos) as Hru.
  destruct (Z.lt_trichotomy (Z.log2 a) 1023) as [Hlt|[Heq|Hgt]].
  - assert (2 ^ (Z.log2 a + 1) ≤ 2 ^ 1023) by (apply Z.pow_le_mono_r; lia).
    rewrite H1024. rewrite H1023 in *.
    change (2 ^ 53) with 9007199254740992.
    change (2 ^ 52) with 4503599627370496 in *. lia.
  - clear Hrl Hru. unfold round53. rewrite Heq in *.
    change (1023 - 52) with 971. change (971 <=? 0) with false. cbv iota.
    change (1023 + 1) with 1024 in Hhi.
    unfold round_half_even.
    pose proof (Z.div_mod a (2 ^ 971) ltac:(lia)) as Hdm.
    pose proof (Z.mod_pos_bound a (2 ^ 971) ltac:(lia)) as Hr.
    set (q := a / 2 ^ 971) in *. set (r := a mod 2 ^ 971) in *.
    rewrite H1024, H1023, ?H971 in *.
    change (2 ^ 53) with 9007199254740992 in *.
    change (2 ^ 52) with 4503599627370496 in *.
    set (h := 2 ^ 970) in *. clearbody h q r.
    assert (Hq : 4503599627370496 ≤ q < 9007199254740992) by nia.
    destruct (decide (q = 9007199254740991)) as [->|Hq'].
    + change (Z.even 9007199254740991) with false. cbv iota.
      repeat case_match; lia.
    + assert (Hq1 : q + 1 ≤ 9007199254740991) by lia.
      assert ((q + 1) * (2 * h) ≤ 9007199254740991 * (2 * h)) by nia.
      repeat case_match; nia.
  - assert (2 ^ 1024 ≤ 2 ^ Z.log2 a) by (apply Z.pow_le_mono_r; lia).
    assert (0 < 2 ^ 970 < 2 ^ 1024) by (split; [lia|apply Z.pow_lt_mono_r; lia]).
    lia.
Qed.

(** The conversion raises exactly from [2 ^ 1024 - 2 ^ 970] on. *)
Lemma float_of_int_fits (n : Z) :
  Z.abs n < 2 ^ 1024 - 2 ^ 970 →
  float_of_int n = Ok (MkFloat (Z.sgn n * round53 (Z.abs n)) 0).
Proof.
  intros Hn. unfold float_of_int.
  apply round53_fits in Hn; [|lia].
  case_match; [lia|reflexivity].
Qed.

Lemma float_of_int_overflow (n : Z) :
  2 ^ 1024 - 2 ^ 970 ≤ Z.abs n → float_of_int n = Raise OverflowError.
Proof.
  intros Hn. unfold float_of_int.
  pose proof (round53_fits (Z.abs n) ltac:(lia)).
  case_match; [reflexivity|lia].
Qed.

(** ** human_readable_bytes *)

(** Once [num_bytes] is a float, the loop cannot raise. *)
Lemma human_readable_bytes_loop_float (us : list string) (x : pyfloat) :
  ∃ r, human_readable_bytes_loop us (PyFloat x) = Ok r.
Proof.
  revert x. induction us as [|unit us IH]; intros x; cbn.
  - eauto.
  - destruct (fl_mant x <? 1024 * 2 ^ fl_scale x); cbn; eauto.
Qed.

(** The first turn of the loop, where [num_bytes] is still an [int]. *)
Lemma human_readable_bytes_first (n : Z) :
  human_readable_bytes n =
    if n <? 1024 then
      x ← float_of_int n; Ok (Some (format_float_2f x +:+ " bytes"))
    else
      x ← float_of_int n;
      human_readable_bytes_loop (tail units) (PyFloat (fdiv_1024 x)).
Proof. unfold human_readable_bytes. cbn. destruct (float_of_int n); reflexivity. Qed.

(** The only exception of [human_readable_bytes] is the one of the
    conversion of its argument to a float. *)
Lemma human_readable_bytes_returns (n : Z) (x : pyfloat) :
  float_of_int n = Ok x → ∃ r, human_readable_bytes n = Ok r.
Proof.
  intros Hx. rewrite human_readable_bytes_first, Hx.
  destruct (n <? 1024); [cbn; eauto|].
  apply human_readable_bytes_loop_float.
Qed.

Lemma human_readable_bytes_raises (n : Z) (e : exn) :
  float_of_int n = Raise e → human_readable_bytes n = Raise e.
Proof.
  intros Hx. rewrite human_readable_bytes_first, Hx.
  destruct (n <? 1024); reflexivity.
Qed.

(** [human_readable_bytes] returns on every integer a float can hold. *)
Lemma human_readable_bytes_in_range (n : Z) :
  Z.abs n < 2 ^ 1024 - 2 ^ 970 → ∃ r, human_readable_bytes n = Ok r.
Proof.
  intros Hn. eapply human_readable_bytes_returns, float_of_int_fits, Hn.
Qed.

(** X3.  From [2 ^ 1024 - 2 ^ 970] on, in magnitude, the argument cannot
    be converted to a float and [human_readable_bytes] raises. *)
Lemma human_readable_bytes_overflow (n : Z) :
  2 ^ 1024 - 2 ^ 970 ≤ Z.abs n →
  human_readable_bytes n = Raise OverflowError.
Proof.
  intros Hn. apply human_readable_bytes_raises, float_of_int_overflow, Hn.
Qed.

(** X1.  Below [1024 ^ 5] the value is divided [k] times, until it is
    below 1024, and rendered at two decimals with the [k]-th unit. *)
Lemma human_readable_bytes_unit (n : Z) (k : nat) :
  0 ≤ n → (k = 0%nat ∨ 1024 ^ Z.of_nat k ≤ n) → n < 1024 ^ (Z.of_nat k + 1) →
  (k < 5)%nat →
  human_readable_bytes n =
    Ok (Some (format_float_2f (MkFloat n (10 * Z.of_nat k))
                +:+ " " +:+ nth k units EmptyString)).
Proof.
  intros Hn Hlo Hhi Hk.
  assert (Hx : float_of_int n = Ok (MkFloat n 0)).
  { apply float_of_int_exact.
    assert (1024 ^ (Z.of_nat k + 1) ≤ 1024 ^ 5) by (apply Z.pow_le_mono_r; lia).
    change (1024 ^ 5) with 1125899906842624 in *.
    change (2 ^ 53) with 9007199254740992. lia. }
  rewrite human_readable_bytes_first, Hx.
  destruct k as [|[|[|[|[|k]]]]]; [..|lia];
    cbn -[Z.ltb format_float_2f] in *;
    repeat (case_match; try lia; cbn -[Z.ltb format_float_2f] in * );
    reflexivity.
Qed.

Lemma human_readable_bytes_unit_witness :
  0 ≤ 1536 ∧ 1024 ^ Z.of_nat 1 ≤ 1536 ∧ 1536 < 1024 ^ (Z.of_nat 1 + 1)
  ∧ human_readable_bytes 1536 = Ok (Some "1.50 KB"%string).
Proof.
  split; [discriminate|]. split; [discriminate|]. split; [reflexivity|].
  apply (human_readable_bytes_unit 1536 1);
    [discriminate | right; discriminate | reflexivity | repeat constructor].
Defined.

(** X2.  From [1024 ^ 5] on, every comparison fails, the unit table is
    exhausted and the function returns [None]. *)
Lemma human_readable_bytes_exhausted (n : Z) :
  1024 ^ 5 ≤ n → n < 2 ^ 1024 - 2 ^ 970 →
  human_readable_bytes n = Ok None.
Proof.
  intros Hlo Hhi.
  change (1024 ^ 5) with 1125899906842624 in Hlo.
  rewrite <- (Z.abs_eq n) in Hhi by lia.
  pose proof (float_of_int_fits n Hhi) as Hx.
  assert (Hm : 1125899906842624 ≤ Z.sgn n * round53 (Z.abs n)).
  { rewrite Z.sgn_pos, Z.abs_eq by lia.
    pose proof (round53_lower n ltac:(lia)).
    assert (50 ≤ Z.log2 n).
    { apply (Z.log2_le_pow2 n 50); [lia|]. change (2 ^ 50) with 1125899906842624. lia. }
    assert (2 ^ 50 ≤ 2 ^ Z.log2 n) by (apply Z.pow_le_mono_r; lia).
    change (2 ^ 50) with 1125899906842624 in *. lia. }
  set (m := Z.sgn n * round53 (Z.abs n)) in *. clearbody m.
  rewrite human_readable_bytes_first, Hx.
  cbn -[Z.ltb] in *;
    repeat (case_match; try lia; cbn -[Z.ltb] in * ).
  reflexivity.
Qed.

Lemma human_readable_bytes_exhausted_witness :
  1024 ^ 5 ≤ 2 ^ 64 - 1 ∧ 2 ^ 64 - 1 < 2 ^ 1024 - 2 ^ 970
  ∧ human_readable_bytes (2 ^ 64 - 1) = Ok None.
Proof.
  split; [discriminate|]. split; [reflexivity|].
  apply (human_readable_bytes_exhausted (2 ^ 64 - 1));
    [discriminate | reflexivity].
Defined.

Lemma human_readable_bytes_overflow_witness :
  2 ^ 1024 - 2 ^ 970 ≤ Z.abs (2 ^ 1024)
  ∧ human_readable_bytes (2 ^ 1024) = Raise OverflowError.
Proof.
  split; [discriminate|].
  apply (human_readable_bytes_overflow (2 ^ 1024)). discriminate.
Defined.

(** ** The status vocabulary *)

Lemma status_map_down :
  fortigate_ipsecvpn_tunnel_ent_status_map !! "1"%string = Some "down"%string.
Proof. reflexivity. Qed.

Lemma status_map_up :
  fortigate_ipsecvpn_tunnel_ent_status_map !! "2"%string = Some "up"%string.
Proof. reflexivity. Qed.

Lemma status_map_unknown (code : string) :
  code ≠ "1"%string → code ≠ "2"%string →
  fortigate_ipsecvpn_tunnel_ent_status_map !! code = None.
Proof.
  intros H1 H2. unfold fortigate_ipsecvpn_tunnel_ent_status_map.
  rewrite lookup_insert_ne by done. by apply lookup_singleton_ne.
Qed.

Lemma status_map_keys (code label : string) :
  fortigate_ipsecvpn_tunnel_ent_status_map !! code = Some label →
  (code = "1"%string ∧ label = "down"%string)
  ∨ (code = "2"%string ∧ label = "up"%string).
Proof.
  intros H.
  destruct (decide (code = "1"%string)) as [->|H1].
  { rewrite status_map_down in H. left. split; congruence. }
  destruct (decide (code = "2"%string)) as [->|H2].
  { rewrite status_map_up in H. right. split; congruence. }
  rewrite status_map_unknown in H by done. discriminate.
Qed.

(** ** check_fortigate_vpn_tunnel, path by path *)

Section Check.

Variables (item : string) (section : gmap string tunnel).

Lemma check_missing :
  section !! item = None →
  check_fortigate_vpn_tunnel item section =
    MkGen [Result CRIT ("Tunnel '" +:+ item +:+ "' is missing")] (Ok ()).
Proof. intros H. unfold check_fortigate_vpn_tunnel. rewrite H. reflexivity. Qed.

Variable data : tunnel.
Hypothesis Hdata : section !! item = Some data.

Lemma check_unknown_status :
  fortigate_ipsecvpn_tunnel_ent_status_map !! data_state data = None →
  check_fortigate_vpn_tunnel item section = MkGen [] (Raise KeyError).
Proof.
  intros H. unfold check_fortigate_vpn_tunnel, getitem.
  rewrite Hdata, H. reflexivity.
Qed.

Lemma check_raise_in (label : string) (e : exn) :
  fortigate_ipsecvpn_tunnel_ent_status_map !! data_state data = Some label →
  human_readable_bytes (data_in data) = Raise e →
  check_fortigate_vpn_tunnel item section = MkGen [] (Raise e).
Proof.
  intros H Hin. unfold check_fortigate_vpn_tunnel, getitem.
  rewrite Hdata, H, Hin. reflexivity.
Qed.

Lemma check_raise_out (label : string) (r_in : option string) (e : exn) :
  fortigate_ipsecvpn_tunnel_ent_status_map !! data_state data = Some label →
  human_readable_bytes (data_in data) = Ok r_in →
  human_readable_bytes (data_out data) = Raise e →
  check_fortigate_vpn_tunnel item section = MkGen [] (Raise e).
Proof.
  intros H Hin Hout. unfold check_fortigate_vpn_tunnel, getitem.
  rewrite Hdata, H, Hin, Hout. reflexivity.
Qed.

Lemma check_reported (label : string) (r_in r_out : option string) :
  fortigate_ipsecvpn_tunnel_ent_status_map !! data_state data = Some label →
  human_readable_bytes (data_in data) = Ok r_in →
  human_readable_bytes (data_out data) = Ok r_out →
  check_fortigate_vpn_tunnel item section =
    MkGen [Result (default UNKNOWN (state_map !! label))
             ("Status: " +:+ label +:+ ", In: " +:+ py_str r_in
                +:+ ", Out: " +:+ py_str r_out);
           Metric "in_octets" (data_in data);
           Metric "out_octets" (data_out data)]
          (Ok ()).
Proof.
  intros H Hin Hout. unfold check_fortigate_vpn_tunnel, getitem.
  rewrite Hdata, H, Hin, Hout. reflexivity.
Qed.

(** A present tunnel is reported in full or not at all. *)
Lemma check_present_cases :
  (∃ e, check_fortigate_vpn_tunnel item section = MkGen [] (Raise e))
  ∨ (∃ state summary,
       check_fortigate_vpn_tunnel item section =
         MkGen [Result state summary;
                Metric "in_octets" (data_in data);
                Metric "out_octets" (data_out data)]
               (Ok ())).
Proof.
  destruct (fortigate_ipsecvpn_tunnel_ent_status_map !! data_state data)
    as [label|] eqn:Hl.
  - destruct (human_readable_bytes (data_in data)) as [r_in|e] eqn:Hin.
    + destruct (human_readable_bytes (data_out data)) as [r_out|e] eqn:Hout.
      * right. do 2 eexists. by eapply check_reported.
      * left. eexists. by eapply check_raise_out.
    + left. eexists. by eapply check_raise_in.
  - left. eexists. by apply check_unknown_status.
Qed.

End Check.

(** ** parse_fortigate_vpn_tunnel *)

Section ParseProperties.

Variable int : string → option Z.

Lemma well_formed_row_inv (row : list string) :
  well_formed_row int row = true →
  ∃ name ph2_in ph2_out status i o,
    row = [name; ph2_in; ph2_out; status]
    ∧ int ph2_in = Some i ∧ int ph2_out = Some o.
Proof.
  unfold well_formed_row. intros H.
  destruct row as [|name [|ph2_in [|ph2_out [|status [|? ?]]]]]; try discriminate.
  destruct (int ph2_in) as [i|] eqn:Hi; [|discriminate].
  destruct (int ph2_out) as [o|] eqn:Ho; [|discriminate].
  by exists name, ph2_in, ph2_out, status, i, o.
Qed.

Lemma parse_row_well_formed (parsed : gmap string tunnel)
    (name ph2_in ph2_out status : string) (i o : Z) :
  int ph2_in = Some i → int ph2_out = Some o →
  parse_row int parsed [name; ph2_in; ph2_out; status] =
    Ok (<[name := MkTunnel i o status]> parsed).
Proof. intros Hi Ho. unfold parse_row, py_int. rewrite Hi, Ho. reflexivity. Qed.

Lemma parse_row_malformed (parsed : gmap string tunnel)
    (name ph2_in ph2_out status : string) :
  int ph2_in = None ∨ int ph2_out = None →
  parse_row int parsed [name; ph2_in; ph2_out; status] = Raise ValueError.
Proof.
  intros H. unfold parse_row, py_int.
  destruct (int ph2_in); [|reflexivity].
  destruct H as [H|H]; [discriminate|]. rewrite H. reflexivity.
Qed.

Lemma parse_loop_cons (row : list string) (rest : list (list string))
    (parsed : gmap string tunnel) :
  parse_loop int (row :: rest) parsed =
    parsed' ← parse_row int parsed row; parse_loop int rest parsed'.
Proof. reflexivity. Qed.

Lemma parse_loop_app (l1 l2 : list (list string)) (parsed : gmap string tunnel) :
  parse_loop int (l1 ++ l2) parsed =
    parsed' ← parse_loop int l1 parsed; parse_loop int l2 parsed'.
Proof.
  revert parsed. induction l1 as [|row l1 IH]; intros parsed; [reflexivity|].
  rewrite <- app_comm_cons, !parse_loop_cons.
  destruct (parse_row int parsed row); cbn; [apply IH|reflexivity].
Qed.

(** The only exception of a turn of the loop is [ValueError]. *)
Lemma parse_row_raises (parsed : gmap string tunnel) (row : list string) (e : exn) :
  parse_row int parsed row = Raise e → e = ValueError.
Proof.
  unfold parse_row, py_int. intros H.
  repeat (case_match; cbn in H; try congruence).
Qed.

(** One malformed row makes the loop raise, whatever was parsed before. *)
Lemma parse_loop_malformed (rows : list (list string))
    (parsed : gmap string tunnel) (name ph2_in ph2_out status : string) :
  [name; ph2_in; ph2_out; status] ∈ rows →
  int ph2_in = None ∨ int ph2_out = None →
  parse_loop int rows parsed = Raise ValueError.
Proof.
  intros Hin Hbad. revert parsed.
  induction rows as [|row rows IH]; intros parsed.
  - by apply not_elem_of_nil in Hin.
  - rewrite parse_loop_cons. apply elem_of_cons in Hin as [<-|Hin].
    + by rewrite parse_row_malformed.
    + destruct (parse_row int parsed row) as [parsed'|e] eqn:Hrow; cbn.
      * by apply IH.
      * by apply parse_row_raises in Hrow as ->.
Qed.

(** Every name of a well-formed table is a key of what the loop returns. *)
Lemma parse_loop_keys (rows : list (list string))
    (parsed snapshot : gmap string tunnel) (name : string) :
  parse_loop int rows parsed = Ok snapshot →
  is_Some (parsed !! name) ∨ (∃ row, row ∈ rows ∧ head row = Some name) →
  is_Some (snapshot !! name).
Proof.
  revert parsed. induction rows as [|row rows IH]; intros parsed Hs Hname.
  - injection Hs as <-. destruct Hname as [H|(row & Hin & _)]; [done|].
    by apply not_elem_of_nil in Hin.
  - rewrite parse_loop_cons in Hs.
    destruct (parse_row int parsed row) as [parsed'|e] eqn:Hrow; [|discriminate].
    cbn in Hs. apply (IH parsed' Hs).
    unfold parse_row in Hrow.
    destruct row as [|n [|a [|b [|st [|? ?]]]]]; try discriminate.
    destruct (py_int int a) as [i|]; [|discriminate].
    destruct (py_int int b) as [o|]; [|discriminate].
    cbn in Hrow. injection Hrow as <-.
    destruct Hname as [H|(row & Hin & Hhead)].
    + left. destruct (decide (n = name)) as [->|Hne].
      * rewrite lookup_insert_eq. by eexists.
      * by rewrite lookup_insert_ne.
    + apply elem_of_cons in Hin as [->|Hin].
      * cbn in Hhead. injection Hhead as ->. left.
        rewrite lookup_insert_eq. by eexists.
      * right. by exists row.
Qed.

(** On well-formed rows the loop returns, and what it returns for a name is
    decided by the last row of that name, or by the initial dictionary when
    there is none. *)
Lemma parse_loop_well_formed (rows : list (list string))
    (parsed : gmap string tunnel) :
  Forall (λ row, well_formed_row int row = true) rows →
  ∃ snapshot, parse_loop int rows parsed = Ok snapshot
    ∧ ∀ name record, snapshot !! name = Some record →
        parsed !! name = Some record
        ∨ ∃ ph2_in ph2_out,
            [name; ph2_in; ph2_out; data_state record] ∈ rows
            ∧ int ph2_in = Some (data_in record)
            ∧ int ph2_out = Some (data_out record).
Proof.
  intros Hwf. revert parsed.
  induction Hwf as [|row rows Hrow _ IH]; intros parsed.
  - exists parsed. split; [reflexivity|]. auto.
  - apply well_formed_row_inv in Hrow
      as (name & ph2_in & ph2_out & status & i & o & -> & Hi & Ho).
    rewrite parse_loop_cons, (parse_row_well_formed _ _ _ _ _ _ _ Hi Ho). cbn.
    destruct (IH (<[name := MkTunnel i o status]> parsed))
      as (snapshot & Hs & Hlook).
    exists snapshot. split; [done|].
    intros name' record Hrec.
    destruct (Hlook _ _ Hrec) as [Hold|(a & b & Hin & Ha & Hb)].
    + destruct (decide (name = name')) as [<-|Hne].
      * rewrite lookup_insert_eq in Hold. injection Hold as <-.
        right. exists ph2_in, ph2_out. cbn. split; [apply list_elem_of_here|done].
      * rewrite lookup_insert_ne in Hold by done. by left.
    + right. exists a, b. split; [by apply list_elem_of_further|done].
Qed.

(** Rows of other names leave a name's entry as it was. *)
Lemma parse_loop_other_names (rows : list (list string))
    (parsed : gmap string tunnel) (name : string) :
  Forall (λ row, well_formed_row int row = true) rows →
  (∀ row, row ∈ rows → head row ≠ Some name) →
  ∃ snapshot, parse_loop int rows parsed = Ok snapshot
    ∧ snapshot !! name = parsed !! name.
Proof.
  intros Hwf. revert parsed.
  induction Hwf as [|row rows Hrow _ IH]; intros parsed Hother.
  - by exists parsed.
  - apply well_formed_row_inv in Hrow
      as (name' & ph2_in & ph2_out & status & i & o & -> & Hi & Ho).
    rewrite parse_loop_cons, (parse_row_well_formed _ _ _ _ _ _ _ Hi Ho). cbn.
    destruct (IH (<[name' := MkTunnel i o status]> parsed))
      as (snapshot & Hs & Hlook).
    { intros row Hin. apply Hother. by apply list_elem_of_further. }
    exists snapshot. split; [done|].
    rewrite Hlook. apply lookup_insert_ne.
    intros ->. by apply (Hother _ (list_elem_of_here _ _)).
Qed.

End ParseProperties.

(** ** discover_fortigate_vpn_tunnel *)

Lemma elem_of_keys {V : Type} (d : gmap string V) (k : string) :
  k ∈ keys d ↔ is_Some (d !! k).
Proof.
  unfold keys. rewrite list_elem_of_fmap. split.
  - intros ([k' v] & -> & Hin). apply elem_of_map_to_list in Hin. by exists v.
  - intros [v Hv]. exists (k, v). split; [done|]. by apply elem_of_map_to_list.
Qed.

Lemma NoDup_keys {V : Type} (d : gmap string V) : NoDup (keys d).
Proof. apply NoDup_fst_map_to_list. Qed.

(** * The claims *)

(** C1 (the code departs from the claim).  At [1024 ^ 5] bytes, the first
    input of 1024 TB or more, the TB turn of the loop divides once more, the
    unit table is exhausted and the function returns [None]: nothing labelled
    TB is rendered.  One byte less is still rendered with the TB label. *)
Theorem human_readable_bytes_1024_TB :
  human_readable_bytes (1024 ^ 5) = Ok None
  ∧ human_readable_bytes (1024 ^ 5 - 1) = Ok (Some "1024.00 TB"%string).
Proof. split; vm_compute; reflexivity. Qed.

(** C9.  [human_readable_bytes] at the 1024 boundaries and at zero:
    1048576 is ["1.00 MB"], 1023 is ["1023.00 bytes"], 1024 is ["1.00 KB"]
    and 0 is ["0.00 bytes"]. *)
Theorem human_readable_bytes_boundaries :
  human_readable_bytes 1048576 = Ok (Some "1.00 MB"%string)
  ∧ human_readable_bytes 1023 = Ok (Some "1023.00 bytes"%string)
  ∧ human_readable_bytes 1024 = Ok (Some "1.00 KB"%string)
  ∧ human_readable_bytes 0 = Ok (Some "0.00 bytes"%string).
Proof. repeat split; vm_compute; reflexivity. Qed.

(** C2.  When the tunnel is in the snapshot and its status code is neither
    ["1"] nor ["2"], the check ends by raising [KeyError]; no result with
    state [UNKNOWN] is yielded. *)
Theorem check_unknown_status_is_KeyError
    (item : string) (section : gmap string tunnel) (data : tunnel) :
  section !! item = Some data →
  data_state data ≠ "1"%string → data_state data ≠ "2"%string →
  outcome (check_fortigate_vpn_tunnel item section) = Raise KeyError
  ∧ ∀ summary,
      Result UNKNOWN summary ∉ yielded (check_fortigate_vpn_tunnel item section).
Proof.
  intros Hdata H1 H2.
  rewrite (check_unknown_status item section data Hdata)
    by by apply status_map_unknown.
  split; [reflexivity|]. intros summary. apply not_elem_of_nil.
Qed.

Lemma check_unknown_status_is_KeyError_witness :
  example_section !! "vpn3"%string = Some (MkTunnel 10 20 "7")
  ∧ "7"%string ≠ "1"%string ∧ "7"%string ≠ "2"%string
  ∧ outcome (check_fortigate_vpn_tunnel "vpn3" example_section) = Raise KeyError.
Proof.
  split; [reflexivity|]. split; [discriminate|]. split; [discriminate|].
  apply (check_unknown_status_is_KeyError "vpn3" example_section
           (MkTunnel 10 20 "7")); [reflexivity|discriminate|discriminate].
Defined.

(** C3.  An identifier absent from the snapshot gets exactly one result,
    [CRIT] with summary [Tunnel '<item>' is missing], and no metric.  It is
    the only evaluation that returns without metrics: for a tunnel that is
    present, an evaluation that yields anything, or that returns, yields its
    result followed by both metrics. *)
Theorem check_missing_is_the_only_path_without_metrics
    (item : string) (section : gmap string tunnel) :
  (section !! item = None →
     check_fortigate_vpn_tunnel item section =
       MkGen [Result CRIT ("Tunnel '" +:+ item +:+ "' is missing")] (Ok ())
     ∧ List.filter is_metric
         (yielded (check_fortigate_vpn_tunnel item section)) = [])
  ∧ (∀ data, section !! item = Some data →
       yielded (check_fortigate_vpn_tunnel item section) ≠ []
       ∨ outcome (check_fortigate_vpn_tunnel item section) = Ok () →
       ∃ state summary,
         check_fortigate_vpn_tunnel item section =
           MkGen [Result state summary;
                  Metric "in_octets" (data_in data);
                  Metric "out_octets" (data_out data)]
                 (Ok ()))
  ∧ (outcome (check_fortigate_vpn_tunnel item section) = Ok () →
     List.filter is_metric
       (yielded (check_fortigate_vpn_tunnel item section)) = [] →
     section !! item = None).
Proof.
  split; [|split].
  - intros Hnone. rewrite (check_missing item section Hnone). done.
  - intros data Hdata Hsome.
    destruct (check_present_cases item section data Hdata)
      as [[e He]|(state & summary & Hfull)].
    + rewrite He in Hsome. cbn in Hsome. by destruct Hsome.
    + by exists state, summary.
  - intros Hok Hnometric.
    destruct (section !! item) as [data|] eqn:Hdata; [|reflexivity].
    destruct (check_present_cases item section data Hdata)
      as [[e He]|(state & summary & Hfull)].
    + rewrite He in Hok. discriminate.
    + rewrite Hfull in Hnometric. discriminate.
Qed.

Lemma check_missing_is_the_only_path_without_metrics_witness :
  example_section !! "X"%string = None
  ∧ check_fortigate_vpn_tunnel "X" example_section =
      MkGen [Result CRIT "Tunnel 'X' is missing"] (Ok ()).
Proof.
  split; [reflexivity|].
  apply (proj1 (check_missing_is_the_only_path_without_metrics
                  "X" example_section)).
  reflexivity.
Defined.

(** C4 as stated fails: a tunnel that is present with status ["2"] and an
    inbound counter of [2 ^ 1024] gets no verdict at all, because rendering
    the counter raises [OverflowError] before anything is yielded. *)
Lemma check_up_without_verdict :
  huge_section !! "vpn1"%string = Some (MkTunnel (2 ^ 1024) 0 "2")
  ∧ check_fortigate_vpn_tunnel "vpn1" huge_section
      = MkGen [] (Raise OverflowError)
  ∧ ¬ ∃ summary,
        Result OK summary ∈ yielded (check_fortigate_vpn_tunnel "vpn1" huge_section).
Proof.
  assert (Hrun : check_fortigate_vpn_tunnel "vpn1" huge_section
                 = MkGen [] (Raise OverflowError)) by (vm_compute; reflexivity).
  split; [reflexivity|]. split; [exact Hrun|].
  rewrite Hrun. intros [summary Hin]. by apply not_elem_of_nil in Hin.
Qed.

(** C4, amended.  For a tunnel that is present and whose two counters are
    below [2 ^ 1024 - 2 ^ 970] in magnitude (the integers a float can hold),
    [human_readable_bytes] returns on both counters, status ["2"] (label
    [up]) yields [OK] and status ["1"] (label [down]) yields [CRIT], with the
    summary [Status: <label>, In: <human_readable_bytes(in)>, Out:
    <human_readable_bytes(out)>] and the two metrics behind it. *)
Theorem check_verdict_follows_status
    (item : string) (section : gmap string tunnel) (data : tunnel) :
  section !! item = Some data →
  Z.abs (data_in data) < 2 ^ 1024 - 2 ^ 970 →
  Z.abs (data_out data) < 2 ^ 1024 - 2 ^ 970 →
  ∃ r_in r_out,
    human_readable_bytes (data_in data) = Ok r_in
    ∧ human_readable_bytes (data_out data) = Ok r_out
    ∧ (data_state data = "2"%string →
         check_fortigate_vpn_tunnel item section =
           MkGen [Result OK ("Status: up, In: " +:+ py_str r_in
                               +:+ ", Out: " +:+ py_str r_out);
                  Metric "in_octets" (data_in data);
                  Metric "out_octets" (data_out data)]
                 (Ok ()))
    ∧ (data_state data = "1"%string →
         check_fortigate_vpn_tunnel item section =
           MkGen [Result CRIT ("Status: down, In: " +:+ py_str r_in
                                 +:+ ", Out: " +:+ py_str r_out);
                  Metric "in_octets" (data_in data);
                  Metric "out_octets" (data_out data)]
                 (Ok ())).
Proof.
  intros Hdata Hin Hout.
  destruct (human_readable_bytes_in_range _ Hin) as [r_in Hr_in].
  destruct (human_readable_bytes_in_range _ Hout) as [r_out Hr_out].
  exists r_in, r_out. split; [done|]. split; [done|]. split; intros Hstate.
  - rewrite (check_reported item section data Hdata "up" r_in r_out);
      [reflexivity| by rewrite Hstate |done|done].
  - rewrite (check_reported item section data Hdata "down" r_in r_out);
      [reflexivity| by rewrite Hstate |done|done].
Qed.

Lemma check_verdict_follows_status_witness :
  example_section !! "vpn1"%string = Some (MkTunnel 2048 1536 "1")
  ∧ Z.abs 2048 < 2 ^ 1024 - 2 ^ 970
  ∧ Z.abs 1536 < 2 ^ 1024 - 2 ^ 970
  ∧ check_fortigate_vpn_tunnel "vpn1" example_section =
      MkGen [Result CRIT "Status: down, In: 2.00 KB, Out: 1.50 KB";
             Metric "in_octets" 2048; Metric "out_octets" 1536]
            (Ok ()).
Proof.
  assert (H1 : example_section !! "vpn1"%string = Some (MkTunnel 2048 1536 "1"))
    by reflexivity.
  assert (H2 : Z.abs 2048 < 2 ^ 1024 - 2 ^ 970) by reflexivity.
  assert (H3 : Z.abs 1536 < 2 ^ 1024 - 2 ^ 970) by reflexivity.
  split; [exact H1|]. split; [exact H2|]. split; [exact H3|].
  destruct (check_verdict_follows_status "vpn1" example_section
              (MkTunnel 2048 1536 "1") H1 H2 H3)
    as (r_in & r_out & Hr_in & Hr_out & _ & Hdown).
  vm_compute in Hr_in, Hr_out.
  injection Hr_in as <-. injection Hr_out as <-.
  exact (Hdown eq_refl).
Defined.

(** C5.  When the tunnel is present and the evaluation returns, the metrics
    yielded are exactly [in_octets] and [out_octets], carrying the two
    integer counters of the snapshot. *)
Theorem check_metrics_are_raw_counters
    (item : string) (section : gmap string tunnel) (data : tunnel) :
  section !! item = Some data →
  outcome (check_fortigate_vpn_tunnel item section) = Ok () →
  List.filter is_metric (yielded (check_fortigate_vpn_tunnel item section)) =
    [Metric "in_octets" (data_in data); Metric "out_octets" (data_out data)].
Proof.
  intros Hdata Hok.
  destruct (check_present_cases item section data Hdata)
    as [[e He]|(state & summary & Hfull)].
  - rewrite He in Hok. discriminate.
  - rewrite Hfull. reflexivity.
Qed.

Lemma check_metrics_are_raw_counters_witness :
  example_section !! "vpn4"%string = Some (MkTunnel (1024 ^ 5 - 1) (1024 ^ 5) "2")
  ∧ outcome (check_fortigate_vpn_tunnel "vpn4" example_section) = Ok ()
  ∧ yielded (check_fortigate_vpn_tunnel "vpn4" example_section) =
      [Result OK "Status: up, In: 1024.00 TB, Out: None";
       Metric "in_octets" 1125899906842623;
       Metric "out_octets" 1125899906842624]
  ∧ List.filter is_metric
      (yielded (check_fortigate_vpn_tunnel "vpn4" example_section)) =
      [Metric "in_octets" 1125899906842623;
       Metric "out_octets" 1125899906842624].
Proof.
  split; [reflexivity|]. split; [vm_compute; reflexivity|].
  split; [vm_compute; reflexivity|].
  apply (check_metrics_are_raw_counters "vpn4" example_section
           (MkTunnel (1024 ^ 5 - 1) (1024 ^ 5) "2"));
    [reflexivity | vm_compute; reflexivity].
Defined.

(** C6.  If some row of the table has a byte field that [int] cannot read,
    the parse raises [ValueError] and so returns no snapshot.  If every row
    is well formed, the parse returns a snapshot: each record in it comes
    from a row of its name, with that row's status text unchanged and
    unchecked, and every name of the table is a key. *)
Theorem parse_raises_or_returns
    (int : string → option Z) (string_table : list (list string)) :
  (∀ name ph2_in ph2_out status,
     [name; ph2_in; ph2_out; status] ∈ string_table →
     int ph2_in = None ∨ int ph2_out = None →
     parse_fortigate_vpn_tunnel int string_table = Raise ValueError)
  ∧ (Forall (λ row, well_formed_row int row = true) string_table →
     ∃ snapshot,
       parse_fortigate_vpn_tunnel int string_table = Ok snapshot
       ∧ (∀ name record, snapshot !! name = Some record →
            ∃ ph2_in ph2_out,
              [name; ph2_in; ph2_out; data_state record] ∈ string_table
              ∧ int ph2_in = Some (data_in record)
              ∧ int ph2_out = Some (data_out record))
       ∧ (∀ name ph2_in ph2_out status,
            [name; ph2_in; ph2_out; status] ∈ string_table →
            is_Some (snapshot !! name))).
Proof.
  split.
  - intros name ph2_in ph2_out status Hin Hbad.
    by eapply parse_loop_malformed.
  - intros Hwf.
    destruct (parse_loop_well_formed int string_table ∅ Hwf)
      as (snapshot & Hs & Hlook).
    exists snapshot. split; [exact Hs|]. split.
    + intros name record Hrec.
      destruct (Hlook name record Hrec) as [Hempty|Hrow]; [|exact Hrow].
      by rewrite lookup_empty in Hempty.
    + intros name ph2_in ph2_out status Hin.
      apply (parse_loop_keys int string_table ∅ snapshot name Hs).
      right. by exists [name; ph2_in; ph2_out; status].
Qed.

Lemma parse_raises_or_returns_witness :
  parse_fortigate_vpn_tunnel int_decimal
    [["vpn1"; "100"; "200"; "2"]; ["vpn2"; "12"; "n/a"; "1"]]%string
    = Raise ValueError
  ∧ ∃ snapshot,
      parse_fortigate_vpn_tunnel int_decimal example_table = Ok snapshot
      ∧ ∃ record, snapshot !! "vpn3"%string = Some record
                  ∧ data_state record = "7"%string.
Proof.
  split.
  - apply (proj1 (parse_raises_or_returns int_decimal
                    [["vpn1"; "100"; "200"; "2"]; ["vpn2"; "12"; "n/a"; "1"]]%string)
             "vpn2"%string "12"%string "n/a"%string "1"%string).
    + apply list_elem_of_further, list_elem_of_here.
    + right. reflexivity.
  - destruct (proj2 (parse_raises_or_returns int_decimal example_table))
      as (snapshot & Hs & Hrows & Hkeys).
    + repeat constructor.
    + exists snapshot. split; [exact Hs|].
      destruct (Hkeys "vpn3"%string "10"%string "20"%string "7"%string)
        as [record Hrec].
      { do 3 apply list_elem_of_further. apply list_elem_of_here. }
      exists record. split; [exact Hrec|].
      destruct (Hrows _ _ Hrec) as (ph2_in & ph2_out & Hin & _).
      unfold example_table in Hin.
      repeat (apply elem_of_cons in Hin as [Hin|Hin]; [congruence|]).
      by apply not_elem_of_nil in Hin.
Defined.

(** C7.  In a well-formed table, a name maps to the values of the last row
    that carries it, however many earlier rows carry it too; the parse
    returns. *)
Theorem parse_last_row_wins
    (int : string → option Z) (before after : list (list string))
    (name ph2_in ph2_out status : string) (i o : Z) :
  Forall (λ row, well_formed_row int row = true) before →
  Forall (λ row, well_formed_row int row = true) after →
  int ph2_in = Some i → int ph2_out = Some o →
  (∀ row, row ∈ after → head row ≠ Some name) →
  ∃ snapshot,
    parse_fortigate_vpn_tunnel int
      (before ++ [name; ph2_in; ph2_out; status] :: after) = Ok snapshot
    ∧ snapshot !! name = Some (MkTunnel i o status).
Proof.
  intros Hbefore Hafter Hi Ho Hlast.
  unfold parse_fortigate_vpn_tunnel. rewrite parse_loop_app.
  destruct (parse_loop_well_formed int before ∅ Hbefore) as (s1 & -> & _).
  cbn [mbind result_bind].
  rewrite parse_loop_cons, (parse_row_well_formed int _ _ _ _ _ _ _ Hi Ho).
  cbn [mbind result_bind].
  destruct (parse_loop_other_names int after
              (<[name := MkTunnel i o status]> s1) name Hafter Hlast)
    as (snapshot & -> & Hlook).
  exists snapshot. split; [reflexivity|].
  rewrite Hlook. apply lookup_insert_eq.
Qed.

Lemma parse_last_row_wins_witness :
  ∃ snapshot,
    parse_fortigate_vpn_tunnel int_decimal example_table = Ok snapshot
    ∧ snapshot !! "vpn1"%string = Some (MkTunnel 2048 1536 "1").
Proof.
  apply (parse_last_row_wins int_decimal
           [["vpn1"; "100"; "200"; "2"]; ["vpn2"; "0"; "0"; "2"]]%string
           [["vpn3"; "10"; "20"; "7"]]%string
           "vpn1" "2048" "1536" "1" 2048 1536).
  - repeat constructor.
  - repeat constructor.
  - reflexivity.
  - reflexivity.
  - intros row Hin. apply list_elem_of_singleton in Hin as ->. discriminate.
Defined.

(** C8.  The services discovered are one per key of the snapshot: no key is
    repeated, a service is discovered exactly when its item is a key, the
    items are the key set, and there are as many services as keys.  The
    result depends on the content of the snapshot only. *)
Theorem discover_is_the_key_set (section : gmap string tunnel) :
  NoDup (discover_fortigate_vpn_tunnel section)
  ∧ (∀ name,
       Service name ∈ discover_fortigate_vpn_tunnel section
       ↔ is_Some (section !! name))
  ∧ list_to_set (service_item <$> discover_fortigate_vpn_tunnel section)
      = dom section
  ∧ length (discover_fortigate_vpn_tunnel section) = size section
  ∧ (∀ section' : gmap string tunnel,
       (∀ name, section' !! name = section !! name) →
       discover_fortigate_vpn_tunnel section'
         = discover_fortigate_vpn_tunnel section).
Proof.
  assert (Hinj : Inj (=) (=) Service) by (intros a b H; by injection H).
  assert (Hmem : ∀ name, Service name ∈ discover_fortigate_vpn_tunnel section
                         ↔ is_Some (section !! name)).
  { intros name. unfold discover_fortigate_vpn_tunnel.
    rewrite (list_elem_of_fmap_inj Service). apply elem_of_keys. }
  split; [|split; [exact Hmem|split; [|split]]].
  - unfold discover_fortigate_vpn_tunnel.
    apply (NoDup_fmap_2 Service), NoDup_keys.
  - apply set_eq. intros name.
    rewrite elem_of_list_to_set, elem_of_dom, <- Hmem, list_elem_of_fmap.
    split.
    + intros ([name'] & -> & Hin). exact Hin.
    + intros Hin. by exists (Service name).
  - unfold discover_fortigate_vpn_tunnel, keys.
    rewrite !length_fmap. apply length_map_to_list.
  - intros section' Hsame. by rewrite (map_eq section' section Hsame).
Qed.

Lemma discover_is_the_key_set_witness :
  list_to_set (service_item <$> discover_fortigate_vpn_tunnel example_section)
    = ({[ "vpn1"; "vpn2"; "vpn3"; "vpn4" ]} : gset string)
  ∧ length (discover_fortigate_vpn_tunnel example_section) = 4%nat.
Proof.
  destruct (discover_is_the_key_set example_section)
    as (_ & _ & Hset & Hlen & _).
  split.
  - rewrite Hset. vm_compute. reflexivity.
  - rewrite Hlen. vm_compute. reflexivity.
Defined.

(** C10.  A tunnel whose status code is not in the vocabulary yields
    nothing; more generally an evaluation that raises has yielded nothing.
    Every evaluation is one of three: it raises with nothing yielded, it
    returns the single missing-tunnel result, or it returns a result followed
    by both metrics. *)
Theorem check_all_or_nothing (item : string) (section : gmap string tunnel) :
  (∀ data, section !! item = Some data →
     fortigate_ipsecvpn_tunnel_ent_status_map !! data_state data = None →
     yielded (check_fortigate_vpn_tunnel item section) = []
     ∧ raises (outcome (check_fortigate_vpn_tunnel item section)))
  ∧ (raises (outcome (check_fortigate_vpn_tunnel item section)) →
     yielded (check_fortigate_vpn_tunnel item section) = [])
  ∧ ((∃ e, check_fortigate_vpn_tunnel item section = MkGen [] (Raise e))
     ∨ (section !! item = None
        ∧ check_fortigate_vpn_tunnel item section =
            MkGen [Result CRIT ("Tunnel '" +:+ item +:+ "' is missing")] (Ok ()))
     ∨ (∃ data state summary,
          section !! item = Some data
          ∧ check_fortigate_vpn_tunnel item section =
              MkGen [Result state summary;
                     Metric "in_octets" (data_in data);
                     Metric "out_octets" (data_out data)]
                    (Ok ()))).
Proof.
  assert (Hcases :
    (∃ e, check_fortigate_vpn_tunnel item section = MkGen [] (Raise e))
     ∨ (section !! item = None
        ∧ check_fortigate_vpn_tunnel item section =
            MkGen [Result CRIT ("Tunnel '" +:+ item +:+ "' is missing")] (Ok ()))
     ∨ (∃ data state summary,
          section !! item = Some data
          ∧ check_fortigate_vpn_tunnel item section =
              MkGen [Result state summary;
                     Metric "in_octets" (data_in data);
                     Metric "out_octets" (data_out data)]
                    (Ok ()))).
  { destruct (section !! item) as [data|] eqn:Hdata.
    - destruct (check_present_cases item section data Hdata)
        as [He|(state & summary & Hfull)]; [by left|].
      right. right. by exists data, state, summary.
    - right. left. split; [done|]. by apply check_missing. }
  split; [|split; [|exact Hcases]].
  - intros data Hdata Hunknown.
    by rewrite (check_unknown_status item section data Hdata Hunknown).
  - intros Hraise.
    destruct Hcases as [[e He]|[[_ Hmiss]|(data & state & summary & _ & Hfull)]].
    + by rewrite He.
    + rewrite Hmiss in Hraise. destruct Hraise.
    + rewrite Hfull in Hraise. destruct Hraise.
Qed.

Lemma check_all_or_nothing_witness :
  example_section !! "vpn3"%string = Some (MkTunnel 10 20 "7")
  ∧ fortigate_ipsecvpn_tunnel_ent_status_map !! "7"%string = None
  ∧ yielded (check_fortigate_vpn_tunnel "vpn3" example_section) = [].
Proof.
  split; [reflexivity|]. split; [reflexivity|].
  apply (proj1 (check_all_or_nothing "vpn3" example_section)
           (MkTunnel 10 20 "7")); reflexivity.
Defined.

(** * Further properties *)

(** ** The parser on arbitrary tables *)

Section ParseTables.

Variable int : string → option Z.

Lemma parse_row_not_well_formed (parsed : gmap string tunnel) (row : list string) :
  well_formed_row int row = false → parse_row int parsed row = Raise ValueError.
Proof.
  unfold well_formed_row, parse_row, py_int. intros H.
  destruct row as [|name [|ph2_in [|ph2_out [|status [|? ?]]]]]; try reflexivity.
  destruct (int ph2_in); [|reflexivity].
  destruct (int ph2_out); [discriminate|reflexivity].
Qed.

Lemma parse_loop_not_well_formed (rows : list (list string))
    (parsed : gmap string tunnel) (row : list string) :
  row ∈ rows → well_formed_row int row = false →
  parse_loop int rows parsed = Raise ValueError.
Proof.
  intros Hin Hbad. revert parsed.
  induction rows as [|row' rows IH]; intros parsed.
  - by apply not_elem_of_nil in Hin.
  - rewrite parse_loop_cons. apply elem_of_cons in Hin as [<-|Hin].
    + by rewrite parse_row_not_well_formed.
    + destruct (parse_row int parsed row') as [parsed'|e] eqn:Hrow; cbn.
      * by apply IH.
      * by apply parse_row_raises in Hrow as ->.
Qed.

Lemma well_formed_row_length (row : list string) :
  well_formed_row int row = true → length row = 4%nat.
Proof.
  intros H. apply well_formed_row_inv in H
    as (name & a & b & st & i & o & -> & _). reflexivity.
Qed.

(** The entry of a name after the loop is that of the last row carrying
    it, whatever the loop started from. *)
Lemma parse_loop_last_row (before after : list (list string))
    (parsed : gmap string tunnel) (name ph2_in ph2_out status : string) (i o : Z) :
  Forall (λ row, well_formed_row int row = true) before →
  Forall (λ row, well_formed_row int row = true) after →
  int ph2_in = Some i → int ph2_out = Some o →
  (∀ row, row ∈ after → head row ≠ Some name) →
  ∃ snapshot,
    parse_loop int (before ++ [name; ph2_in; ph2_out; status] :: after) parsed
      = Ok snapshot
    ∧ snapshot !! name = Some (MkTunnel i o status).
Proof.
  intros Hbefore Hafter Hi Ho Hlast. rewrite parse_loop_app.
  destruct (parse_loop_well_formed int before parsed Hbefore) as (s1 & -> & _).
  cbn [mbind result_bind].
  rewrite parse_loop_cons, (parse_row_well_formed int _ _ _ _ _ _ _ Hi Ho).
  cbn [mbind result_bind].
  destruct (parse_loop_other_names int after
              (<[name := MkTunnel i o status]> s1) name Hafter Hlast)
    as (snapshot & -> & Hlook).
  exists snapshot. split; [reflexivity|].
  rewrite Hlook. apply lookup_insert_eq.
Qed.

End ParseTables.

(** X4.  The parse returns a snapshot exactly when every row is well
    formed (four fields, both byte fields readable by [int]); as soon as one
    row is not, it raises [ValueError]. *)
Theorem parse_returns_iff_well_formed
    (int : string → option Z) (string_table : list (list string)) :
  ((∃ snapshot, parse_fortigate_vpn_tunnel int string_table = Ok snapshot)
   ↔ Forall (λ row, well_formed_row int row = true) string_table)
  ∧ (parse_fortigate_vpn_tunnel int string_table = Raise ValueError
     ↔ Exists (λ row, well_formed_row int row = false) string_table).
Proof.
  assert (Hdec : ∀ row : list string,
            {well_formed_row int row = true} + {well_formed_row int row = false}).
  { intros row. destruct (well_formed_row int row); [by left|by right]. }
  destruct (Forall_Exists_dec _ _ Hdec string_table) as [Hall|Hsome].
  - destruct (parse_loop_well_formed int string_table ∅ Hall) as (s & Hs & _).
    unfold parse_fortigate_vpn_tunnel. rewrite Hs. split.
    + split; [done|]. intros _. by exists s.
    + split; [discriminate|]. intros Hex.
      apply Exists_exists in Hex as (row & Hin & Hbad).
      rewrite Forall_forall in Hall. rewrite (Hall row Hin) in Hbad. discriminate.
  - pose proof Hsome as Hex. apply Exists_exists in Hex as (row & Hin & Hbad).
    unfold parse_fortigate_vpn_tunnel.
    rewrite (parse_loop_not_well_formed int string_table ∅ row Hin Hbad). split.
    + split; [by intros [s Hs]|]. intros Hall.
      rewrite Forall_forall in Hall. rewrite (Hall row Hin) in Hbad. discriminate.
    + done.
Qed.

(** X5.  A row that does not have exactly four fields makes the parse raise
    [ValueError], wherever it stands in the table. *)
Theorem parse_wrong_arity
    (int : string → option Z) (string_table : list (list string))
    (row : list string) :
  row ∈ string_table → length row ≠ 4%nat →
  parse_fortigate_vpn_tunnel int string_table = Raise ValueError.
Proof.
  intros Hin Hlen. apply (parse_loop_not_well_formed int _ _ row Hin).
  destruct (well_formed_row int row) eqn:Hwf; [|reflexivity].
  by apply well_formed_row_length in Hwf.
Qed.

Lemma parse_wrong_arity_witness :
  ["vpn2"; "5"; "6"]%string
    ∈ [["vpn1"; "100"; "200"; "2"]; ["vpn2"; "5"; "6"]]%string
  ∧ length ["vpn2"; "5"; "6"]%string ≠ 4%nat
  ∧ parse_fortigate_vpn_tunnel int_decimal
      [["vpn1"; "100"; "200"; "2"]; ["vpn2"; "5"; "6"]]%string
      = Raise ValueError.
Proof.
  assert (Hin : ["vpn2"; "5"; "6"]%string
                  ∈ [["vpn1"; "100"; "200"; "2"]; ["vpn2"; "5"; "6"]]%string)
    by apply list_elem_of_further, list_elem_of_here.
  split; [exact Hin|]. split; [discriminate|].
  apply (parse_wrong_arity int_decimal _ _ Hin). discriminate.
Defined.

Section ParseSnapshots.

Variable int : string → option Z.

Lemma parse_row_ok_inv (parsed parsed' : gmap string tunnel) (row : list string) :
  parse_row int parsed row = Ok parsed' →
  ∃ name ph2_in ph2_out status i o,
    row = [name; ph2_in; ph2_out; status]
    ∧ int ph2_in = Some i ∧ int ph2_out = Some o
    ∧ parsed' = <[name := MkTunnel i o status]> parsed.
Proof.
  unfold parse_row, py_int. intros H.
  destruct row as [|name [|a [|b [|st [|? ?]]]]]; try discriminate.
  destruct (int a) as [i|] eqn:Hi; [|discriminate].
  destruct (int b) as [o|] eqn:Ho; [|discriminate].
  cbn in H. injection H as <-. by exists name, a, b, st, i, o.
Qed.

Lemma parse_loop_ok_well_formed (rows : list (list string))
    (parsed snapshot : gmap string tunnel) :
  parse_loop int rows parsed = Ok snapshot →
  Forall (λ row, well_formed_row int row = true) rows.
Proof.
  intros Hs. apply Forall_forall. intros row Hin.
  destruct (well_formed_row int row) eqn:Hwf; [reflexivity|].
  rewrite (parse_loop_not_well_formed int rows parsed row Hin Hwf) in Hs.
  discriminate.
Qed.

(** The keys of what the loop returns are those it started with and the
    names of the rows. *)
Lemma parse_loop_lookup_is_Some (rows : list (list string))
    (parsed snapshot : gmap string tunnel) (name : string) :
  parse_loop int rows parsed = Ok snapshot →
  is_Some (snapshot !! name)
  ↔ is_Some (parsed !! name) ∨ ∃ row, row ∈ rows ∧ head row = Some name.
Proof.
  intros Hs. split; [|by apply (parse_loop_keys int rows parsed)].
  intros [record Hrec].
  destruct (parse_loop_well_formed int rows parsed
              (parse_loop_ok_well_formed _ _ _ Hs)) as (s' & Hs' & Hlook).
  rewrite Hs in Hs'. injection Hs' as <-.
  destruct (Hlook name record Hrec) as [Hold|(a & b & Hin & _)].
  - left. by exists record.
  - right. by exists [name; a; b; data_state record].
Qed.

Lemma parse_loop_size_le (rows : list (list string))
    (parsed snapshot : gmap string tunnel) :
  parse_loop int rows parsed = Ok snapshot →
  (size snapshot ≤ size parsed + length rows)%nat.
Proof.
  revert parsed. induction rows as [|row rows IH]; intros parsed Hs.
  - injection Hs as <-. cbn. lia.
  - rewrite parse_loop_cons in Hs.
    destruct (parse_row int parsed row) as [parsed'|e] eqn:Hrow; [|discriminate].
    cbn in Hs. apply IH in Hs.
    apply parse_row_ok_inv in Hrow
      as (name & a & b & st & i & o & _ & _ & _ & ->).
    rewrite map_size_insert in Hs. cbn [length].
    destruct (parsed !! name); cbn in Hs; lia.
Qed.

Lemma parse_loop_size_distinct (rows : list (list string))
    (parsed snapshot : gmap string tunnel) :
  NoDup (head <$> rows) →
  (∀ row name, row ∈ rows → head row = Some name → parsed !! name = None) →
  parse_loop int rows parsed = Ok snapshot →
  size snapshot = (size parsed + length rows)%nat.
Proof.
  revert parsed. induction rows as [|row rows IH]; intros parsed Hnd Hfresh Hs.
  - injection Hs as <-. cbn. lia.
  - rewrite parse_loop_cons in Hs.
    destruct (parse_row int parsed row) as [parsed'|e] eqn:Hrow; [|discriminate].
    cbn in Hs. rewrite fmap_cons in Hnd. apply NoDup_cons in Hnd as [Hnotin Hnd].
    apply parse_row_ok_inv in Hrow
      as (name & a & b & st & i & o & -> & _ & _ & ->).
    cbn in Hnotin.
    apply (IH _ Hnd) in Hs.
    + rewrite Hs, map_size_insert_None; [cbn [length]; lia|].
      apply (Hfresh [name; a; b; st]); [apply list_elem_of_here|reflexivity].
    + intros row name' Hin Hhead.
      rewrite lookup_insert_ne.
      * apply (Hfresh row); [by apply list_elem_of_further|done].
      * intros ->. apply Hnotin. rewrite <- Hhead. by apply list_elem_of_fmap_2.
Qed.

(** With distinct names, the entry of a name is that of its row. *)
Lemma parse_loop_lookup_distinct (rows : list (list string))
    (parsed : gmap string tunnel) (name ph2_in ph2_out status : string) (i o : Z) :
  Forall (λ row, well_formed_row int row = true) rows →
  NoDup (head <$> rows) →
  [name; ph2_in; ph2_out; status] ∈ rows →
  int ph2_in = Some i → int ph2_out = Some o →
  ∃ snapshot, parse_loop int rows parsed = Ok snapshot
    ∧ snapshot !! name = Some (MkTunnel i o status).
Proof.
  intros Hwf Hnd Hin Hi Ho.
  apply list_elem_of_split in Hin as (before & after & ->).
  apply Forall_app in Hwf as [Hbefore Hafter].
  apply Forall_cons in Hafter as [_ Hafter].
  apply (parse_loop_last_row int); try done.
  intros row Hrow Hhead.
  rewrite fmap_app, fmap_cons in Hnd.
  apply NoDup_app in Hnd as (_ & _ & Hnd).
  apply NoDup_cons in Hnd as [Hnotin _].
  apply Hnotin. cbn. rewrite <- Hhead. by apply list_elem_of_fmap_2.
Qed.

End ParseSnapshots.

Lemma example_table_parsed :
  parse_fortigate_vpn_tunnel int_decimal example_table = Ok example_snapshot.
Proof. vm_compute. reflexivity. Qed.

(** X6.  A snapshot never has more tunnels than the table has rows, and it
    has exactly as many when no name is repeated in the table. *)
Theorem parse_size
    (int : string → option Z) (string_table : list (list string))
    (snapshot : gmap string tunnel) :
  parse_fortigate_vpn_tunnel int string_table = Ok snapshot →
  (size snapshot ≤ length string_table)%nat
  ∧ (NoDup (head <$> string_table) → size snapshot = length string_table).
Proof.
  unfold parse_fortigate_vpn_tunnel. intros Hs. split.
  - apply (parse_loop_size_le int) in Hs. by rewrite map_size_empty in Hs.
  - intros Hnd.
    rewrite (parse_loop_size_distinct int string_table ∅ snapshot Hnd); [|done|done].
    by rewrite map_size_empty.
Qed.

Lemma parse_size_witness :
  parse_fortigate_vpn_tunnel int_decimal example_table = Ok example_snapshot
  ∧ (size example_snapshot ≤ length example_table)%nat
  ∧ size example_snapshot = 3%nat.
Proof.
  split; [exact example_table_parsed|].
  split; [|vm_compute; reflexivity].
  exact (proj1 (parse_size int_decimal example_table example_snapshot
                  example_table_parsed)).
Defined.

(** X7.  After a parse, the services discovered are exactly the names that
    stand first in some row of the table. *)
Theorem discover_after_parse
    (int : string → option Z) (string_table : list (list string))
    (snapshot : gmap string tunnel) :
  parse_fortigate_vpn_tunnel int string_table = Ok snapshot →
  ∀ name,
    Service name ∈ discover_fortigate_vpn_tunnel snapshot
    ↔ ∃ row, row ∈ string_table ∧ head row = Some name.
Proof.
  intros Hs name.
  assert (Hinj : Inj (=) (=) Service) by (intros a b H; by injection H).
  unfold discover_fortigate_vpn_tunnel.
  rewrite (list_elem_of_fmap_inj Service), elem_of_keys.
  rewrite (parse_loop_lookup_is_Some int string_table ∅ snapshot name Hs).
  rewrite lookup_empty. split; [|by right].
  intros [[? H]|H]; [discriminate|exact H].
Qed.

Lemma discover_after_parse_witness :
  parse_fortigate_vpn_tunnel int_decimal example_table = Ok example_snapshot
  ∧ Service "vpn2" ∈ discover_fortigate_vpn_tunnel example_snapshot.
Proof.
  split; [exact example_table_parsed|].
  apply (discover_after_parse int_decimal example_table example_snapshot
           example_table_parsed "vpn2"%string).
  exists ["vpn2"; "0"; "0"; "2"]%string. split; [|reflexivity].
  apply list_elem_of_further, list_elem_of_here.
Defined.

(** X8.  When no name is repeated, the order of the rows does not matter:
    a well-formed table and any rearrangement of it parse to the same
    snapshot. *)
Theorem parse_permutation
    (int : string → option Z) (string_table string_table' : list (list string)) :
  Forall (λ row, well_formed_row int row = true) string_table →
  NoDup (head <$> string_table) →
  string_table ≡ₚ string_table' →
  parse_fortigate_vpn_tunnel int string_table'
    = parse_fortigate_vpn_tunnel int string_table.
Proof.
  intros Hwf Hnd Hperm.
  assert (Hwf' : Forall (λ row, well_formed_row int row = true) string_table')
    by by rewrite <- Hperm.
  assert (Hnd' : NoDup (head <$> string_table')) by by rewrite <- Hperm.
  assert (Htransfer : ∀ t1 t2 s1 s2 name record,
            Forall (λ row, well_formed_row int row = true) t1 →
            Forall (λ row, well_formed_row int row = true) t2 →
            NoDup (head <$> t2) → t1 ≡ₚ t2 →
            parse_loop int t1 ∅ = Ok s1 → parse_loop int t2 ∅ = Ok s2 →
            s1 !! name = Some record → s2 !! name = Some record).
  { intros t1 t2 s1 s2 name record H1 H2 Hnd2 H12 Hs1 Hs2 Hrec.
    destruct (parse_loop_well_formed int t1 ∅ H1) as (s & Hs & Hlook).
    rewrite Hs1 in Hs. injection Hs as <-.
    destruct (Hlook name record Hrec) as [Hempty|(a & b & Hin & Ha & Hb)].
    { by rewrite lookup_empty in Hempty. }
    rewrite H12 in Hin.
    destruct (parse_loop_lookup_distinct int t2 ∅ _ _ _ _ _ _ H2 Hnd2 Hin Ha Hb)
      as (s & Hs & Hlook2).
    rewrite Hs2 in Hs. injection Hs as <-.
    rewrite Hlook2. by destruct record. }
  unfold parse_fortigate_vpn_tunnel.
  destruct (parse_loop_well_formed int string_table ∅ Hwf) as (s & Hs & _).
  destruct (parse_loop_well_formed int string_table' ∅ Hwf') as (s' & Hs' & _).
  rewrite Hs, Hs'. f_equal. apply map_eq. intros name.
  destruct (s !! name) as [record|] eqn:Hrec.
  - by apply (Htransfer string_table string_table' s s').
  - destruct (s' !! name) as [record'|] eqn:Hrec'; [|reflexivity].
    rewrite (Htransfer string_table' string_table s' s name record') in Hrec;
      done.
Qed.

Lemma parse_permutation_witness :
  parse_fortigate_vpn_tunnel int_decimal
    [["vpn2"; "0"; "0"; "2"]; ["vpn1"; "100"; "200"; "2"]]%string
  = parse_fortigate_vpn_tunnel int_decimal
      [["vpn1"; "100"; "200"; "2"]; ["vpn2"; "0"; "0"; "2"]]%string.
Proof.
  apply parse_permutation.
  - repeat constructor.
  - cbn. apply NoDup_cons. split.
    + intros Hin. apply list_elem_of_singleton in Hin. discriminate.
    + apply NoDup_singleton.
  - apply Permutation_swap.
Defined.

(** ** Parsing, then checking *)

(** The check of an item looks at the item's entry only. *)
Lemma check_local (item : string) (section section' : gmap string tunnel) :
  section !! item = section' !! item →
  check_fortigate_vpn_tunnel item section
    = check_fortigate_vpn_tunnel item section'.
Proof. intros H. unfold check_fortigate_vpn_tunnel. by rewrite H. Qed.

(** X9.  After a parse, the check of a tunnel is decided by the last row
    that carries its name: it is the check of that one record, whatever the
    other rows hold. *)
Theorem check_after_parse
    (int : string → option Z) (before after : list (list string))
    (name ph2_in ph2_out status : string) (i o : Z) :
  Forall (λ row, well_formed_row int row = true) before →
  Forall (λ row, well_formed_row int row = true) after →
  int ph2_in = Some i → int ph2_out = Some o →
  (∀ row, row ∈ after → head row ≠ Some name) →
  ∃ snapshot,
    parse_fortigate_vpn_tunnel int
      (before ++ [name; ph2_in; ph2_out; status] :: after) = Ok snapshot
    ∧ check_fortigate_vpn_tunnel name snapshot
      = check_fortigate_vpn_tunnel name {[ name := MkTunnel i o status ]}.
Proof.
  intros Hbefore Hafter Hi Ho Hlast.
  destruct (parse_loop_last_row int before after ∅ name ph2_in ph2_out status
              i o Hbefore Hafter Hi Ho Hlast) as (snapshot & Hs & Hlook).
  exists snapshot. split; [exact Hs|].
  apply check_local. by rewrite Hlook, lookup_singleton_eq.
Qed.

Lemma check_after_parse_witness :
  ∃ snapshot,
    parse_fortigate_vpn_tunnel int_decimal example_table = Ok snapshot
    ∧ check_fortigate_vpn_tunnel "vpn1" snapshot
      = MkGen [Result CRIT "Status: down, In: 2.00 KB, Out: 1.50 KB";
               Metric "in_octets" 2048; Metric "out_octets" 1536]
              (Ok ()).
Proof.
  destruct (check_after_parse int_decimal
              [["vpn1"; "100"; "200"; "2"]; ["vpn2"; "0"; "0"; "2"]]%string
              [["vpn3"; "10"; "20"; "7"]]%string
              "vpn1" "2048" "1536" "1" 2048 1536) as (snapshot & Hs & Hcheck).
  - repeat constructor.
  - repeat constructor.
  - reflexivity.
  - reflexivity.
  - intros row Hin. apply list_elem_of_singleton in Hin as ->. discriminate.
  - exists snapshot. split; [exact Hs|]. rewrite Hcheck. vm_compute. reflexivity.
Defined.

(** X10.  A name that stands first in no row of the table is reported
    missing after the parse. *)
Theorem check_absent_after_parse
    (int : string → option Z) (string_table : list (list string))
    (snapshot : gmap string tunnel) (name : string) :
  parse_fortigate_vpn_tunnel int string_table = Ok snapshot →
  (∀ row, row ∈ string_table → head row ≠ Some name) →
  check_fortigate_vpn_tunnel name snapshot =
    MkGen [Result CRIT ("Tunnel '" +:+ name +:+ "' is missing")] (Ok ()).
Proof.
  intros Hs Habsent. apply check_missing.
  destruct (snapshot !! name) as [record|] eqn:Hrec; [|reflexivity].
  destruct (proj1 (parse_loop_lookup_is_Some int string_table ∅ snapshot name Hs))
    as [[? H]|(row & Hin & Hhead)].
  - by exists record.
  - by rewrite lookup_empty in H.
  - by destruct (Habsent row Hin).
Qed.

Lemma check_absent_after_parse_witness :
  parse_fortigate_vpn_tunnel int_decimal example_table = Ok example_snapshot
  ∧ check_fortigate_vpn_tunnel "vpn9" example_snapshot =
      MkGen [Result CRIT "Tunnel 'vpn9' is missing"] (Ok ()).
Proof.
  split; [exact example_table_parsed|].
  apply (check_absent_after_parse int_decimal example_table example_snapshot
           "vpn9" example_table_parsed).
  intros row Hin. unfold example_table in Hin.
  repeat (apply elem_of_cons in Hin as [->|Hin]; [discriminate|]).
  by apply not_elem_of_nil in Hin.
Defined.

(** X11.  Against one snapshot, discovery and check agree: an item is
    among the discovered services exactly when its check does not report it
    missing. *)
Theorem discovered_iff_not_missing
    (item : string) (section : gmap string tunnel) :
  Service item ∈ discover_fortigate_vpn_tunnel section
  ↔ check_fortigate_vpn_tunnel item section
      ≠ MkGen [Result CRIT ("Tunnel '" +:+ item +:+ "' is missing")] (Ok ()).
Proof.
  assert (Hinj : Inj (=) (=) Service) by (intros a b H; by injection H).
  unfold discover_fortigate_vpn_tunnel.
  rewrite (list_elem_of_fmap_inj Service), elem_of_keys. split.
  - intros [data Hdata] Heq.
    destruct (check_present_cases item section data Hdata)
      as [[e He]|(state & summary & Hfull)]; congruence.
  - intros Hne. destruct (section !! item) as [data|] eqn:Hdata; [by exists data|].
    destruct Hne. by apply check_missing.
Qed.

(** ** What a check can yield and how it can end *)

(** X12.  A result yielded by the check is [OK] or [CRIT], never [WARN] or
    [UNKNOWN]: [OK] comes from a present tunnel of status ["2"] only, and
    [CRIT] from a missing tunnel or a present one of status ["1"]. *)
Theorem check_verdict_states
    (item : string) (section : gmap string tunnel)
    (state : State) (summary : string) :
  Result state summary ∈ yielded (check_fortigate_vpn_tunnel item section) →
  (state = OK
   ∧ ∃ data, section !! item = Some data ∧ data_state data = "2"%string)
  ∨ (state = CRIT
     ∧ (section !! item = None
        ∨ ∃ data, section !! item = Some data ∧ data_state data = "1"%string)).
Proof.
  intros Hin.
  destruct (section !! item) as [data|] eqn:Hdata.
  - destruct (fortigate_ipsecvpn_tunnel_ent_status_map !! data_state data)
      as [label|] eqn:Hl.
    + destruct (human_readable_bytes (data_in data)) as [r_in|e] eqn:Hr_in.
      * destruct (human_readable_bytes (data_out data)) as [r_out|e] eqn:Hr_out.
        -- rewrite (check_reported item section data Hdata label r_in r_out)
             in Hin by done.
           cbn in Hin. apply elem_of_cons in Hin as [Heq|Hin].
           ++ injection Heq as -> _.
              destruct (status_map_keys _ _ Hl) as [[Hc ->]|[Hc ->]].
              ** right. split; [reflexivity|]. right. by exists data.
              ** left. split; [reflexivity|]. by exists data.
           ++ apply elem_of_cons in Hin as [Heq|Hin]; [discriminate|].
              apply list_elem_of_singleton in Hin. discriminate.
        -- rewrite (check_raise_out item section data Hdata label r_in e)
             in Hin by done.
           by apply not_elem_of_nil in Hin.
      * rewrite (check_raise_in item section data Hdata label e) in Hin by done.
        by apply not_elem_of_nil in Hin.
    + rewrite (check_unknown_status item section data Hdata Hl) in Hin.
      by apply not_elem_of_nil in Hin.
  - rewrite (check_missing item section Hdata) in Hin.
    apply list_elem_of_singleton in Hin. injection Hin as -> _.
    right. split; [reflexivity|]. by left.
Qed.

Lemma check_verdict_states_witness :
  Result OK "Status: up, In: 0.00 bytes, Out: 0.00 bytes"
    ∈ yielded (check_fortigate_vpn_tunnel "vpn2" example_section)
  ∧ ((OK = OK
      ∧ ∃ data, example_section !! "vpn2"%string = Some data
                ∧ data_state data = "2"%string)
     ∨ (OK = CRIT
        ∧ (example_section !! "vpn2"%string = None
           ∨ ∃ data, example_section !! "vpn2"%string = Some data
                     ∧ data_state data = "1"%string))).
Proof.
  assert (Hin : Result OK "Status: up, In: 0.00 bytes, Out: 0.00 bytes"
                  ∈ yielded (check_fortigate_vpn_tunnel "vpn2" example_section)).
  { replace (yielded (check_fortigate_vpn_tunnel "vpn2" example_section))
      with [Result OK "Status: up, In: 0.00 bytes, Out: 0.00 bytes";
            Metric "in_octets" 0; Metric "out_octets" 0]
      by (vm_compute; reflexivity).
    apply list_elem_of_here. }
  split; [exact Hin|].
  exact (check_verdict_states "vpn2" example_section OK _ Hin).
Defined.

(** How the check of a present tunnel ends, by its status and counters. *)
Lemma check_outcome_present
    (item : string) (section : gmap string tunnel) (data : tunnel) :
  section !! item = Some data →
  outcome (check_fortigate_vpn_tunnel item section) =
    if decide (data_state data = "1"%string ∨ data_state data = "2"%string) then
      if decide (Z.abs (data_in data) < 2 ^ 1024 - 2 ^ 970
                 ∧ Z.abs (data_out data) < 2 ^ 1024 - 2 ^ 970)
      then Ok () else Raise OverflowError
    else Raise KeyError.
Proof.
  intros Hdata. case_decide as Hstate.
  - assert (∃ label, fortigate_ipsecvpn_tunnel_ent_status_map !! data_state data
                     = Some label) as [label Hl].
    { destruct Hstate as [->| ->]; eexists; reflexivity. }
    case_decide as Hrange.
    + destruct Hrange as [Hin Hout].
      destruct (human_readable_bytes_in_range _ Hin) as [r_in Hr_in].
      destruct (human_readable_bytes_in_range _ Hout) as [r_out Hr_out].
      by rewrite (check_reported item section data Hdata label r_in r_out).
    + destruct (Z.lt_ge_cases (Z.abs (data_in data)) (2 ^ 1024 - 2 ^ 970))
        as [Hin|Hin].
      * destruct (human_readable_bytes_in_range _ Hin) as [r_in Hr_in].
        destruct (Z.lt_ge_cases (Z.abs (data_out data)) (2 ^ 1024 - 2 ^ 970))
          as [Hout|Hout]; [by destruct Hrange|].
        rewrite (check_raise_out item section data Hdata label r_in OverflowError);
          [reflexivity|done|done|].
        by apply human_readable_bytes_raises, float_of_int_overflow.
      * rewrite (check_raise_in item section data Hdata label OverflowError);
          [reflexivity|done|].
        by apply human_readable_bytes_raises, float_of_int_overflow.
  - rewrite (check_unknown_status item section data Hdata); [reflexivity|].
    apply status_map_unknown; intros Heq; apply Hstate; auto.
Qed.

(** X13.  The check returns exactly when the tunnel is missing, or present
    with status ["1"] or ["2"] and both counters below [2 ^ 1024 - 2 ^ 970]
    in magnitude.  It raises [KeyError] exactly for a present tunnel of
    another status, [OverflowError] exactly for a present tunnel of status
    ["1"] or ["2"] with a counter beyond that bound, and nothing else. *)
Theorem check_outcome (item : string) (section : gmap string tunnel) :
  (outcome (check_fortigate_vpn_tunnel item section) = Ok ()
   ↔ section !! item = None
     ∨ ∃ data, section !! item = Some data
         ∧ (data_state data = "1"%string ∨ data_state data = "2"%string)
         ∧ Z.abs (data_in data) < 2 ^ 1024 - 2 ^ 970
         ∧ Z.abs (data_out data) < 2 ^ 1024 - 2 ^ 970)
  ∧ (outcome (check_fortigate_vpn_tunnel item section) = Raise KeyError
     ↔ ∃ data, section !! item = Some data
         ∧ data_state data ≠ "1"%string ∧ data_state data ≠ "2"%string)
  ∧ (outcome (check_fortigate_vpn_tunnel item section) = Raise OverflowError
     ↔ ∃ data, section !! item = Some data
         ∧ (data_state data = "1"%string ∨ data_state data = "2"%string)
         ∧ (2 ^ 1024 - 2 ^ 970 ≤ Z.abs (data_in data)
            ∨ 2 ^ 1024 - 2 ^ 970 ≤ Z.abs (data_out data)))
  ∧ outcome (check_fortigate_vpn_tunnel item section) ≠ Raise ValueError.
Proof.
  destruct (section !! item) as [data|] eqn:Hdata.
  - rewrite (check_outcome_present item section data Hdata).
    set (bound := 2 ^ 1024 - 2 ^ 970). clearbody bound.
    destruct (decide (data_state data = "1"%string ∨ data_state data = "2"%string))
      as [Hstate|Hstate];
      [destruct (decide (Z.abs (data_in data) < bound
                         ∧ Z.abs (data_out data) < bound)) as [Hrange|Hrange]|];
      (split; [|split; [|split]]); try discriminate;
      (split; [intros Hout; try discriminate|intros Hcase; try reflexivity]).
    all: try (right; exists data; by repeat split).
    all: try (exists data; split; [reflexivity|]).
    all: try (destruct Hcase as [Hcase|Hcase]; [discriminate|]).
    all: try (destruct Hcase as (d & Hd & Hcase); injection Hd as <-).
    all: try tauto.
    all: try lia.
    + right. exists data. tauto.
    + split; [done|lia].
  - rewrite (check_missing item section Hdata). cbn.
    split; [|split; [|split]]; try discriminate.
    + split; [by left|done].
    + split; [discriminate|]. by intros (d & Hd & _).
    + split; [discriminate|]. by intros (d & Hd & _).
Qed.

(** ** The text human_readable_bytes renders *)

Lemma string_app_assoc (a b c : string) : (a +:+ b) +:+ c = a +:+ (b +:+ c).
Proof.
  induction a as [|ch a IH]; [reflexivity|].
  change (String ch ((a +:+ b) +:+ c) = String ch (a +:+ (b +:+ c))).
  by rewrite IH.
Qed.

(** The rounding to hundredths is off by at most half a hundredth. *)
Lemma round_half_even_error (a d : Z) :
  0 ≤ a → 0 < d → 2 * Z.abs (a - round_half_even a d * d) ≤ d.
Proof.
  intros Ha Hd. unfold round_half_even.
  pose proof (Z.div_mod a d ltac:(lia)) as Hdm.
  pose proof (Z.mod_pos_bound a d Hd) as Hr.
  set (q := a / d) in *. set (r := a mod d) in *. clearbody q r.
  repeat case_match; nia.
Qed.

(** The hundredths shown for a value below 1024 units. *)
Lemma hundredths_bounds (n d : Z) :
  0 < d → 0 ≤ n → n < 1024 * d →
  0 ≤ round_half_even (100 * n) d ≤ 102400
  ∧ 2 * Z.abs (100 * n - round_half_even (100 * n) d * d) ≤ d.
Proof.
  intros Hd Hn Hlt.
  pose proof (round_half_even_bounds (100 * n) d ltac:(lia) Hd) as [Hlo Hhi].
  pose proof (round_half_even_error (100 * n) d ltac:(lia) Hd) as Herr.
  assert (0 ≤ 100 * n / d) by (apply Z.div_pos; lia).
  assert (100 * n / d < 102400) by (apply Z.div_lt_upper_bound; lia).
  lia.
Qed.

Lemma format_float_2f_nonneg (n s : Z) :
  0 ≤ n →
  format_float_2f (MkFloat n s) =
    pretty (round_half_even (100 * n) (2 ^ s) / 100) +:+ "."
      +:+ two_digits (round_half_even (100 * n) (2 ^ s) mod 100).
Proof.
  intros Hn. unfold format_float_2f. cbn [fl_mant fl_scale].
  rewrite Z.abs_eq by lia.
  destruct (Z.ltb_spec n 0); [lia|]. reflexivity.
Qed.

(** Below [2 ^ 53] the loop is a chain of five comparisons of the integer
    itself. *)
Lemma human_readable_bytes_chain (n : Z) :
  0 ≤ n < 2 ^ 53 →
  human_readable_bytes n =
    if n <? 1024 then
      Ok (Some (format_float_2f (MkFloat n 0) +:+ " bytes"))
    else if n <? 1024 ^ 2 then
      Ok (Some (format_float_2f (MkFloat n 10) +:+ " KB"))
    else if n <? 1024 ^ 3 then
      Ok (Some (format_float_2f (MkFloat n 20) +:+ " MB"))
    else if n <? 1024 ^ 4 then
      Ok (Some (format_float_2f (MkFloat n 30) +:+ " GB"))
    else if n <? 1024 ^ 5 then
      Ok (Some (format_float_2f (MkFloat n 40) +:+ " TB"))
    else Ok None.
Proof.
  intros Hn. rewrite human_readable_bytes_first, float_of_int_exact by lia.
  reflexivity.
Qed.

(** X14.  For [0 ≤ n < 1024 ^ 5], with [k] the unit reached, the text is a
    number of hundredths [h] printed as [h / 100], a point and two digits,
    then the unit; [h] is within half a hundredth of [100 * n / 1024 ^ k]
    and lies between 0 and 102400, so the number shown never exceeds
    1024.00. *)
Theorem human_readable_bytes_accuracy (n : Z) (k : nat) :
  0 ≤ n → (k = 0%nat ∨ 1024 ^ Z.of_nat k ≤ n) → n < 1024 ^ (Z.of_nat k + 1) →
  (k < 5)%nat →
  ∃ h,
    human_readable_bytes n =
      Ok (Some ((pretty (h / 100) +:+ "." +:+ two_digits (h mod 100))
                  +:+ " " +:+ nth k units EmptyString))
    ∧ 2 * Z.abs (100 * n - h * 1024 ^ Z.of_nat k) ≤ 1024 ^ Z.of_nat k
    ∧ 0 ≤ h ≤ 102400.
Proof.
  intros Hn Hlo Hhi Hk.
  assert (Hsmall : 0 ≤ n < 2 ^ 53).
  { assert (1024 ^ (Z.of_nat k + 1) ≤ 1024 ^ 5) by (apply Z.pow_le_mono_r; lia).
    change (1024 ^ 5) with 1125899906842624 in *.
    change (2 ^ 53) with 9007199254740992. lia. }
  rewrite (human_readable_bytes_chain n Hsmall).
  exists (round_half_even (100 * n) (1024 ^ Z.of_nat k)).
  destruct (hundredths_bounds n (1024 ^ Z.of_nat k)) as [Hrange Herr];
    [apply Z.pow_pos_nonneg; lia | lia
    | rewrite Z.pow_add_r, Z.pow_1_r in Hhi by lia; lia |].
  split; [|split; [exact Herr|exact Hrange]].
  clear Hrange Herr.
  destruct k as [|[|[|[|[|k]]]]]; [..|lia];
    cbn -[Z.ltb format_float_2f round_half_even pretty two_digits] in *;
    repeat (case_match; try lia);
    rewrite format_float_2f_nonneg by lia; reflexivity.
Qed.

Lemma human_readable_bytes_accuracy_witness :
  0 ≤ 1048575 ∧ 1024 ^ Z.of_nat 1 ≤ 1048575
  ∧ 1048575 < 1024 ^ (Z.of_nat 1 + 1)
  ∧ human_readable_bytes 1048575 = Ok (Some "1024.00 KB"%string)
  ∧ ∃ h,
      human_readable_bytes 1048575 =
        Ok (Some ((pretty (h / 100) +:+ "." +:+ two_digits (h mod 100))
                    +:+ " " +:+ "KB"))
      ∧ 2 * Z.abs (100 * 1048575 - h * 1024) ≤ 1024
      ∧ 0 ≤ h ≤ 102400.
Proof.
  split; [discriminate|]. split; [discriminate|]. split; [reflexivity|].
  split; [vm_compute; reflexivity|].
  apply (human_readable_bytes_accuracy 1048575 1);
    [discriminate | right; discriminate | reflexivity | repeat constructor].
Defined.

(** X15.  An integer below 1024, negative ones down to [- 2 ^ 53]
    included, is never scaled: the text is the integer itself followed by
    [.00 bytes]. *)
Theorem human_readable_bytes_below_1024 (n : Z) :
  - 2 ^ 53 < n → n < 1024 →
  human_readable_bytes n = Ok (Some (pretty n +:+ ".00 bytes")).
Proof.
  intros Hlo Hhi.
  change (2 ^ 53) with 9007199254740992 in Hlo.
  rewrite human_readable_bytes_first, float_of_int_exact
    by (change (2 ^ 53) with 9007199254740992; lia).
  destruct (Z.ltb_spec n 1024); [|lia].
  cbn [mbind result_bind].
  assert (Hfmt : format_float_2f (MkFloat n 0) = pretty n +:+ ".00").
  { unfold format_float_2f. cbn [fl_mant fl_scale].
    assert (Hh : round_half_even (100 * Z.abs n) (2 ^ 0) = Z.abs n * 100).
    { unfold round_half_even. change (2 ^ 0) with 1.
      rewrite Z.div_1_r, Z.mod_1_r. change (2 * 0 <? 1) with true.
      cbv iota. lia. }
    rewrite Hh, Z.div_mul, Z.mod_mul by lia.
    change (two_digits 0) with "00"%string.
    destruct n as [|p|p]; reflexivity. }
  rewrite Hfmt, string_app_assoc. reflexivity.
Qed.

Lemma human_readable_bytes_below_1024_witness :
  - 2 ^ 53 < -5 ∧ -5 < 1024
  ∧ human_readable_bytes (-5) = Ok (Some "-5.00 bytes"%string).
Proof.
  split; [reflexivity|]. split; [reflexivity|].
  apply (human_readable_bytes_below_1024 (-5)); reflexivity.
Defined.

(** Within the range of a float, [None] is returned from [1024 ^ 5] on and
    nowhere else. *)
Lemma human_readable_bytes_None_iff (n : Z) :
  Z.abs n < 2 ^ 1024 - 2 ^ 970 →
  human_readable_bytes n = Ok None ↔ 1024 ^ 5 ≤ n.
Proof.
  intros Hrange. pose proof (float_of_int_fits n Hrange) as Hx.
  change (1024 ^ 5) with 1125899906842624.
  split.
  - intros Hnone.
    destruct (Z.lt_ge_cases n 1125899906842624) as [Hlt|Hge]; [|exact Hge].
    destruct (Z.lt_ge_cases n 1024) as [Hsmall|Hbig].
    + rewrite human_readable_bytes_first, Hx in Hnone.
      destruct (Z.ltb_spec n 1024); [discriminate|lia].
    + rewrite human_readable_bytes_chain in Hnone
        by (change (2 ^ 53) with 9007199254740992; lia).
      cbn -[Z.ltb format_float_2f] in Hnone.
      repeat (case_match; try discriminate). lia.
  - intros Hge.
    assert (Hm : 1125899906842624 ≤ Z.sgn n * round53 (Z.abs n)).
    { rewrite Z.sgn_pos, Z.abs_eq by lia.
      pose proof (round53_lower n ltac:(lia)).
      assert (50 ≤ Z.log2 n).
      { apply (Z.log2_le_pow2 n 50); [lia|].
        change (2 ^ 50) with 1125899906842624. lia. }
      assert (2 ^ 50 ≤ 2 ^ Z.log2 n) by (apply Z.pow_le_mono_r; lia).
      change (2 ^ 50) with 1125899906842624 in *. lia. }
    clear Hrange.
    set (m := Z.sgn n * round53 (Z.abs n)) in *. clearbody m.
    rewrite human_readable_bytes_first, Hx.
    cbn -[Z.ltb] in *; repeat (case_match; try lia; cbn -[Z.ltb] in * ).
    reflexivity.
Qed.

(** X16.  For a present tunnel of a known status with counters a float
    can hold, the check returns its result and both metrics, and the summary
    carries the text [None] in place of a counter exactly when that counter
    is [1024 ^ 5] or more. *)
Theorem check_summary_None
    (item : string) (section : gmap string tunnel) (data : tunnel)
    (label : string) :
  section !! item = Some data →
  fortigate_ipsecvpn_tunnel_ent_status_map !! data_state data = Some label →
  Z.abs (data_in data) < 2 ^ 1024 - 2 ^ 970 →
  Z.abs (data_out data) < 2 ^ 1024 - 2 ^ 970 →
  ∃ r_in r_out,
    check_fortigate_vpn_tunnel item section =
      MkGen [Result (default UNKNOWN (state_map !! label))
               ("Status: " +:+ label +:+ ", In: " +:+ py_str r_in
                  +:+ ", Out: " +:+ py_str r_out);
             Metric "in_octets" (data_in data);
             Metric "out_octets" (data_out data)]
            (Ok ())
    ∧ (r_in = None ↔ 1024 ^ 5 ≤ data_in data)
    ∧ (r_out = None ↔ 1024 ^ 5 ≤ data_out data).
Proof.
  intros Hdata Hlabel Hin Hout.
  destruct (human_readable_bytes_in_range _ Hin) as [r_in Hr_in].
  destruct (human_readable_bytes_in_range _ Hout) as [r_out Hr_out].
  exists r_in, r_out. split; [by apply check_reported|]. split.
  - rewrite <- (human_readable_bytes_None_iff _ Hin), Hr_in.
    split; [by intros ->|by intros [= ->]].
  - rewrite <- (human_readable_bytes_None_iff _ Hout), Hr_out.
    split; [by intros ->|by intros [= ->]].
Qed.

Lemma check_summary_None_witness :
  example_section !! "vpn4"%string = Some (MkTunnel (1024 ^ 5 - 1) (1024 ^ 5) "2")
  ∧ fortigate_ipsecvpn_tunnel_ent_status_map !! "2"%string = Some "up"%string
  ∧ Z.abs (1024 ^ 5 - 1) < 2 ^ 1024 - 2 ^ 970
  ∧ Z.abs (1024 ^ 5) < 2 ^ 1024 - 2 ^ 970
  ∧ ∃ r_in r_out,
      check_fortigate_vpn_tunnel "vpn4" example_section =
        MkGen [Result OK ("Status: up, In: " +:+ py_str r_in
                            +:+ ", Out: " +:+ py_str r_out);
               Metric "in_octets" (1024 ^ 5 - 1);
               Metric "out_octets" (1024 ^ 5)]
              (Ok ())
      ∧ (r_in = None ↔ 1024 ^ 5 ≤ 1024 ^ 5 - 1)
      ∧ (r_out = None ↔ 1024 ^ 5 ≤ 1024 ^ 5).
Proof.
  split; [reflexivity|]. split; [reflexivity|].
  split; [reflexivity|]. split; [reflexivity|].
  apply (check_summary_None "vpn4" example_section
           (MkTunnel (1024 ^ 5 - 1) (1024 ^ 5) "2") "up");
    reflexivity.
Defined.
